(** * browser-session-tabs: the tab tracker, embedded and verified

    A shallow embedding of [src/browser-tab-tracker/index.ts].  The class
    [BrowserTabTracker<T>] becomes a record of its private fields, its
    methods become computations in a small state-and-exception monad over
    the tracker object and the browser environment it talks to (the two
    stores behind the storage service, [window.onbeforeunload], the host
    application owning the callbacks). *)

From stdpp Require Import base option list gmap strings.
From Stdlib Require Import ZArith NArith Lia.

Local Open Scope Z_scope.

(** ** JavaScript strings

    A JavaScript string is a sequence of UTF-16 code units. *)

Abbreviation JsString := (list N).

Definition code_units (s : string) : JsString :=
  Ascii.N_of_ascii <$> String.list_ascii_of_string s.

(** The character class [\s] of a regular expression without the [u] flag:
    the WhiteSpace and LineTerminator code points of ECMAScript. *)
Definition isWhiteSpace (c : N) : bool :=
  ((c =? 9) || (c =? 10) || (c =? 11) || (c =? 12) || (c =? 13)
   || (c =? 32) || (c =? 160) || (c =? 5760)
   || ((8192 <=? c) && (c <=? 8202))
   || (c =? 8232) || (c =? 8233) || (c =? 8239) || (c =? 8287)
   || (c =? 12288) || (c =? 65279))%N.

(** ** JavaScript numbers

    A [number] is an IEEE 754 double.  On the safe integers, those of
    absolute value at most 2^53 - 1, the double sums [n + 1] and [n - 1]
    are exact and are the integer sums; beyond them the double sum is
    rounded (2^53 + 1 is 2^53).  [Number.MAX_SAFE_INTEGER] and
    [Number.isSafeInteger], on integers: *)
Definition MAX_SAFE_INTEGER : Z := 2 ^ 53 - 1.

Definition isSafeInteger (n : Z) : bool :=
  (- MAX_SAFE_INTEGER <=? n) && (n <=? MAX_SAFE_INTEGER).

(** [!s] on a string: only the empty string is falsy. *)
Definition isFalsyString (s : JsString) : bool :=
  match s with
  | [] => true
  | _ :: _ => false
  end.

Module BrowserTabTracker.

(** [const DEFAULT_STORAGE_KEY = 'browser-session-info'] *)
Definition DEFAULT_STORAGE_KEY : JsString := code_units "browser-session-info".

(** [const REGEX_EMPTY_STRING = /^\s*$/], used through [.test(key)]: the
    anchored pattern matches exactly the strings made of [\s] only. *)
Definition REGEX_EMPTY_STRING_test (key : JsString) : bool :=
  forallb isWhiteSpace key.

Definition INVALID_STORAGE_KEY_ERROR : string := "Invalid storage key".
Definition SESSION_ID_GENERATOR_NOT_SET_ERROR : string := "Session ID generator not set".

(** What a [throw] carries: [new Error(message)] raised by the class itself,
    or the [TypeError] the engine raises on a property access on [null] and
    on a call of a non-function. *)
Inductive JsError : Type :=
  | Error (message : string)
  | TypeError.

(** The names the specification gives to the two errors of [initialize]. *)
Definition ConfigurationError : JsError := Error SESSION_ID_GENERATOR_NOT_SET_ERROR.
Definition InvalidKeyError : JsError := Error INVALID_STORAGE_KEY_ERROR.

Section Tracker.

(** [T] is the type parameter of the class; [Host] is the state of the
    embedding application, which the generator and the callbacks may read
    and change. *)
Context {T Host : Type}.

(** [interface SessionInfo<T> { id: T; tab: number }].  The class only adds
    and subtracts 1, so [tab] is kept as an integer.  The integer [tab + 1]
    and [tab - 1] below are what the code computes as long as [tab] is a
    safe integer ([isSafeInteger]); every statement about the increment or
    the decrement of a record read from a store carries that hypothesis. *)
Record SessionInfo : Type := mkSessionInfo { id : T; tab : Z }.

Definition SessionIdGenerator : Type := Host → T * Host.
Definition SessionStartedCallback : Type := T → Z → Host → Host.
Definition NewTabOpenedCallback : Type := Z → Host → Host.

(** The private fields of a [BrowserTabTracker<T>] object.  [null as any]
    is [None]. *)
Record Tracker : Type := mkTracker {
  storageKeyName : JsString;
  sessionInfo : option SessionInfo;
  sessionIdGenerator : option SessionIdGenerator;
  sessionStartedCallback : option SessionStartedCallback;
  newTabOpenedCallback : option NewTabOpenedCallback;
  newSessionCreated : bool
}.

(** The argument of [initialize]. *)
Record Options : Type := mkOptions {
  opt_sessionIdGenerator : option SessionIdGenerator;
  opt_sessionStartedCallback : option SessionStartedCallback;
  opt_newTabOpenedCallback : option NewTabOpenedCallback;
  opt_storageKey : option JsString
}.

(** An item of a store: a serialized session record, or text that does not
    parse. *)
Inductive Item : Type :=
  | Json (value : SessionInfo)
  | Malformed.

(** Every call that crosses the boundary of the class, in the order made
    (what a spy on the storage service, on the three host functions and on
    [window] would record). *)
Inductive Call : Type :=
  | SessionStorageGet (key : JsString)
  | SessionStorageSet (key : JsString) (value : SessionInfo)
  | SessionCookieGet (key : JsString)
  | SessionCookieSet (key : JsString) (value : SessionInfo)
  | GeneratorCalled (result : T)
  | SessionStartedCalled (sessionId : T) (tabId : Z)
  | NewTabOpenedCalled (tabId : Z)
  | OnBeforeUnloadAssigned.

(** The environment of the tracker: [window.sessionStorage] (the per-tab
    store), the session cookies (the cross-tab store), whether
    [window.onbeforeunload] holds the tracker's handler, the host
    application, and the calls made so far. *)
Record World : Type := mkWorld {
  sessionStorage : gmap JsString Item;
  cookies : gmap JsString Item;
  onbeforeunload : bool;
  host : Host;
  calls : list Call
}.

Record State : Type := mkState { this : Tracker; world : World }.

(** ** The monad of method bodies: state, and [throw] *)

Inductive Completion (A : Type) : Type :=
  | Normal (a : A) (s : State)
  | Abrupt (e : JsError) (s : State).
Global Arguments Normal {A} a s.
Global Arguments Abrupt {A} e s.

Definition M (A : Type) : Type := State → Completion A.

#[local] Instance M_ret : MRet M := λ A a s, Normal a s.
#[local] Instance M_bind : MBind M := λ A B f m s,
  match m s with
  | Normal a s' => f a s'
  | Abrupt e s' => Abrupt e s'
  end.

Definition throw {A : Type} (e : JsError) : M A := λ s, Abrupt e s.
Definition getThis : M Tracker := λ s, Normal (this s) s.
Definition getWorld : M World := λ s, Normal (world s) s.
Definition putThis (t : Tracker) : M unit := λ s, Normal () (mkState t (world s)).
Definition putWorld (w : World) : M unit := λ s, Normal () (mkState (this s) w).

(** The state a computation ends in, however it ends. *)
Definition final {A : Type} (c : Completion A) : State :=
  match c with
  | Normal _ s => s
  | Abrupt _ s => s
  end.

Definition record (c : Call) : M unit :=
  w ← getWorld;
  putWorld (mkWorld (sessionStorage w) (cookies w) (onbeforeunload w) (host w)
                    (calls w ++ [c])).

(** Assignments to the fields of [this]. *)
Definition set_storageKeyName (key : JsString) : M unit :=
  t ← getThis;
  putThis (mkTracker key (sessionInfo t) (sessionIdGenerator t)
                     (sessionStartedCallback t) (newTabOpenedCallback t)
                     (newSessionCreated t)).

Definition set_sessionInfo (info : SessionInfo) : M unit :=
  t ← getThis;
  putThis (mkTracker (storageKeyName t) (Some info) (sessionIdGenerator t)
                     (sessionStartedCallback t) (newTabOpenedCallback t)
                     (newSessionCreated t)).

Definition set_sessionIdGenerator (g : option SessionIdGenerator) : M unit :=
  t ← getThis;
  putThis (mkTracker (storageKeyName t) (sessionInfo t) g
                     (sessionStartedCallback t) (newTabOpenedCallback t)
                     (newSessionCreated t)).

Definition set_sessionStartedCallback (cb : option SessionStartedCallback) : M unit :=
  t ← getThis;
  putThis (mkTracker (storageKeyName t) (sessionInfo t) (sessionIdGenerator t)
                     cb (newTabOpenedCallback t) (newSessionCreated t)).

Definition set_newTabOpenedCallback (cb : option NewTabOpenedCallback) : M unit :=
  t ← getThis;
  putThis (mkTracker (storageKeyName t) (sessionInfo t) (sessionIdGenerator t)
                     (sessionStartedCallback t) cb (newSessionCreated t)).

Definition set_newSessionCreated (b : bool) : M unit :=
  t ← getThis;
  putThis (mkTracker (storageKeyName t) (sessionInfo t) (sessionIdGenerator t)
                     (sessionStartedCallback t) (newTabOpenedCallback t) b).

(** ** The storage service *)

(** Modelled from the spec: the deserialization inside the gets of
    [StorageService] ([src/storage-service], of which only the test-suite
    is at hand).  A get returns the parsed record, or the absent sentinel
    [null] ([None]) when the slot is empty or its text does not parse; it
    never fails. *)
Definition parsed (slot : option Item) : option SessionInfo :=
  match slot with
  | Some (Json v) => Some v
  | Some Malformed => None
  | None => None
  end.

(** Modelled from the spec: [StorageService.sessionStorageGet], the get of
    the per-tab store; the class [StorageService] itself is missing from
    the sources.  Returns the stored value or the absent sentinel. *)
Definition sessionStorageGet (key : JsString) : M (option SessionInfo) :=
  record (SessionStorageGet key) ;;
  w ← getWorld;
  mret (parsed (sessionStorage w !! key)).

(** Modelled from the spec: [StorageService.sessionStorageSet], the set of
    the per-tab store (class missing from the sources).  Overwrites
    unconditionally; the value is stored serialized, so the stored record
    shares nothing with the object it was written from. *)
Definition sessionStorageSet (key : JsString) (value : SessionInfo) : M unit :=
  record (SessionStorageSet key value) ;;
  w ← getWorld;
  putWorld (mkWorld (<[key := Json value]> (sessionStorage w)) (cookies w)
                    (onbeforeunload w) (host w) (calls w)).

(** Modelled from the spec: [StorageService.sessionCookieGet], the get of
    the cross-tab store (class missing from the sources). *)
Definition sessionCookieGet (key : JsString) : M (option SessionInfo) :=
  record (SessionCookieGet key) ;;
  w ← getWorld;
  mret (parsed (cookies w !! key)).

(** Modelled from the spec: [StorageService.sessionCookieSet], the set of
    the cross-tab store (class missing from the sources).  Overwrites
    unconditionally, with the serialized value. *)
Definition sessionCookieSet (key : JsString) (value : SessionInfo) : M unit :=
  record (SessionCookieSet key value) ;;
  w ← getWorld;
  putWorld (mkWorld (sessionStorage w) (<[key := Json value]> (cookies w))
                    (onbeforeunload w) (host w) (calls w)).

(** ** Calls of the host's functions

    The host's functions run synchronously on the host's own state; they
    return normally and leave the tracker and the two stores alone. *)
Definition call_sessionIdGenerator (g : option SessionIdGenerator) : M T :=
  match g with
  | None => throw TypeError
  | Some f =>
      w ← getWorld;
      let (result, h) := f (host w) in
      putWorld (mkWorld (sessionStorage w) (cookies w) (onbeforeunload w) h (calls w)) ;;
      record (GeneratorCalled result) ;;
      mret result
  end.

Definition call_sessionStartedCallback (cb : SessionStartedCallback)
    (sessionId : T) (tabId : Z) : M unit :=
  w ← getWorld;
  putWorld (mkWorld (sessionStorage w) (cookies w) (onbeforeunload w)
                    (cb sessionId tabId (host w)) (calls w)) ;;
  record (SessionStartedCalled sessionId tabId).

Definition call_newTabOpenedCallback (cb : NewTabOpenedCallback) (tabId : Z) : M unit :=
  w ← getWorld;
  putWorld (mkWorld (sessionStorage w) (cookies w) (onbeforeunload w)
                    (cb tabId (host w)) (calls w)) ;;
  record (NewTabOpenedCalled tabId).

(** ** The class *)

(** [new BrowserTabTracker(storageService)]: the field initializers. *)
Definition new_BrowserTabTracker : Tracker :=
  mkTracker DEFAULT_STORAGE_KEY None None None None false.

(** [get tabId()]: [this.sessionInfo.tab]. *)
Definition tabId : M Z :=
  t ← getThis;
  match sessionInfo t with
  | Some info => mret (tab info)
  | None => throw TypeError
  end.

(** [get sessionId()]: [this.sessionInfo.id]. *)
Definition sessionId : M T :=
  t ← getThis;
  match sessionInfo t with
  | Some info => mret (id info)
  | None => throw TypeError
  end.

(** [get storageKey()] *)
Definition storageKey : M JsString :=
  t ← getThis;
  mret (storageKeyName t).

Definition validateSessionIdGenerator (generator : option SessionIdGenerator) : M unit :=
  match generator with
  | None => throw (Error SESSION_ID_GENERATOR_NOT_SET_ERROR)
  | Some _ => mret ()
  end.

Definition validateKey (key : JsString) : M unit :=
  if isFalsyString key || REGEX_EMPTY_STRING_test key
  then throw (Error INVALID_STORAGE_KEY_ERROR)
  else mret ().

Definition startNewSession : M SessionInfo :=
  set_newSessionCreated true ;;
  t ← getThis;
  newId ← call_sessionIdGenerator (sessionIdGenerator t);
  mret (mkSessionInfo newId 0).

Definition generateNewTabId : M SessionInfo :=
  t ← getThis;
  found ← sessionCookieGet (storageKeyName t);
  info ← match found with
         | Some info => mret info
         | None => startNewSession
         end;
  let info := mkSessionInfo (id info) (tab info + 1) in
  t ← getThis;
  match newTabOpenedCallback t with
  | Some cb => call_newTabOpenedCallback cb (tab info)
  | None => mret ()
  end ;;
  t ← getThis;
  sessionCookieSet (storageKeyName t) info ;;
  t ← getThis;
  sessionStorageSet (storageKeyName t) info ;;
  mret info.

Definition generateSessionInfo : M SessionInfo :=
  t ← getThis;
  found ← sessionStorageGet (storageKeyName t);
  match found with
  | Some info => mret info
  | None => generateNewTabId
  end.

(** The arrow function that [listenOnTabCloseEvent] assigns to
    [window.onbeforeunload]; it reads the fields of [this] when it runs. *)
Definition onTabClose : M unit :=
  t ← getThis;
  found ← sessionStorageGet (storageKeyName t);
  match found with
  | None => throw TypeError
  | Some info =>
      let info := mkSessionInfo (id info) (tab info - 1) in
      t ← getThis;
      sessionCookieSet (storageKeyName t) info ;;
      t ← getThis;
      sessionStorageSet (storageKeyName t) info
  end.

Definition listenOnTabCloseEvent : M unit :=
  w ← getWorld;
  putWorld (mkWorld (sessionStorage w) (cookies w) true (host w) (calls w)) ;;
  record OnBeforeUnloadAssigned.

Definition initialize (options : Options) : M unit :=
  t ← getThis;
  match sessionInfo t with
  | None =>
      validateSessionIdGenerator (opt_sessionIdGenerator options) ;;
      set_sessionIdGenerator (opt_sessionIdGenerator options) ;;
      set_sessionStartedCallback (opt_sessionStartedCallback options) ;;
      set_newTabOpenedCallback (opt_newTabOpenedCallback options) ;;
      match opt_storageKey options with
      | Some key =>
          if isFalsyString key then mret ()
          else (validateKey key ;; set_storageKeyName key)
      | None => mret ()
      end ;;
      info ← generateSessionInfo;
      set_sessionInfo info ;;
      t ← getThis;
      match newSessionCreated t, sessionStartedCallback t with
      | true, Some cb =>
          sid ← sessionId;
          tid ← tabId;
          call_sessionStartedCallback cb sid tid
      | _, _ => mret ()
      end
  | Some _ => mret ()
  end ;;
  listenOnTabCloseEvent.

(** The browser firing [beforeunload]: the installed handler runs. *)
Definition beforeunload : M unit :=
  w ← getWorld;
  if onbeforeunload w then onTabClose else mret ().

End Tracker.

Global Arguments SessionInfo : clear implicits.
Global Arguments Tracker : clear implicits.
Global Arguments Options : clear implicits.
Global Arguments Item : clear implicits.
Global Arguments Call : clear implicits.
Global Arguments World : clear implicits.
Global Arguments State : clear implicits.
Global Arguments Completion : clear implicits.
Global Arguments M : clear implicits.

End BrowserTabTracker.

Import BrowserTabTracker.

(** * Vocabulary of the statements *)

Section Vocabulary.

Context {T Host : Type}.

(** Whether [initialize] takes [options.storageKey] as an override at all
    (the guard [if (options.storageKey)]), and the key the resolution then
    runs under. *)
Definition effectiveKey (t : Tracker T Host) (options : Options T Host) : JsString :=
  match opt_storageKey options with
  | Some key => if isFalsyString key then storageKeyName t else key
  | None => storageKeyName t
  end.

(** The override is taken and [validateKey] refuses it. *)
Definition keyRejected (options : Options T Host) : bool :=
  match opt_storageKey options with
  | Some key => negb (isFalsyString key) && REGEX_EMPTY_STRING_test key
  | None => false
  end.

(** What the per-tab and the cross-tab store hold at a key, as a get of the
    storage service sees it. *)
Definition perTab (w : World T Host) (key : JsString) : option (SessionInfo T) :=
  parsed (sessionStorage w !! key).

Definition crossTab (w : World T Host) (key : JsString) : option (SessionInfo T) :=
  parsed (cookies w !! key).

(** The calls made while a computation ran from state [s]. *)
Definition newCalls {A : Type} (s : State T Host) (c : Completion T Host A) : list (Call T) :=
  drop (length (calls (world s))) (calls (world (final c))).

(** Projections of a list of calls. *)
Definition generatorResults (cs : list (Call T)) : list T :=
  omap (λ c, match c with GeneratorCalled r => Some r | _ => None end) cs.

Definition sessionStartedArgs (cs : list (Call T)) : list (T * Z) :=
  omap (λ c, match c with SessionStartedCalled i n => Some (i, n) | _ => None end) cs.

Definition newTabOpenedArgs (cs : list (Call T)) : list Z :=
  omap (λ c, match c with NewTabOpenedCalled n => Some n | _ => None end) cs.

(** The calls that write to a store. *)
Definition isStoreWrite (c : Call T) : bool :=
  match c with
  | SessionStorageSet _ _ | SessionCookieSet _ _ => true
  | _ => false
  end.

(** A tracker on which [initialize] has not resolved a session record yet.
    The flag [newSessionCreated] is only raised on the way to a record. *)
Definition unresolved (t : Tracker T Host) : Prop :=
  sessionInfo t = None ∧ newSessionCreated t = false.

(** The fields of the tracker once [initialize] has taken its options. *)
Definition configured (t : Tracker T Host) (options : Options T Host) : Tracker T Host :=
  mkTracker (effectiveKey t options) (sessionInfo t)
            (opt_sessionIdGenerator options)
            (opt_sessionStartedCallback options)
            (opt_newTabOpenedCallback options)
            (newSessionCreated t).

(** The world after more calls were recorded. *)
Definition logged (w : World T Host) (cs : list (Call T)) : World T Host :=
  mkWorld (sessionStorage w) (cookies w) (onbeforeunload w) (host w) (calls w ++ cs).

(** The world after [window.onbeforeunload] was assigned. *)
Definition hooked (w : World T Host) : World T Host :=
  mkWorld (sessionStorage w) (cookies w) true (host w)
          (calls w ++ [OnBeforeUnloadAssigned]).

(** The world after the generator ran. *)
Definition minted (g : SessionIdGenerator) (w : World T Host) : World T Host :=
  mkWorld (sessionStorage w) (cookies w) (onbeforeunload w) (snd (g (host w)))
          (calls w ++ [GeneratorCalled (fst (g (host w)))]).

(** The world after a tab registered itself under record [r]: the new-tab
    callback, when there is one, then the write to both stores. *)
Definition registered (cb : option NewTabOpenedCallback) (key : JsString)
    (r : SessionInfo T) (w : World T Host) : World T Host :=
  mkWorld (<[key := Json r]> (sessionStorage w))
          (<[key := Json r]> (cookies w))
          (onbeforeunload w)
          (match cb with Some f => f (tab r) (host w) | None => host w end)
          (calls w
             ++ match cb with Some _ => [NewTabOpenedCalled (tab r)] | None => [] end
             ++ [SessionCookieSet key r; SessionStorageSet key r]).

(** The world after the session-started callback, when there is one. *)
Definition announced (cb : option SessionStartedCallback) (r : SessionInfo T)
    (w : World T Host) : World T Host :=
  match cb with
  | Some f =>
      mkWorld (sessionStorage w) (cookies w) (onbeforeunload w)
              (f (id r) (tab r) (host w))
              (calls w ++ [SessionStartedCalled (id r) (tab r)])
  | None => w
  end.

(** The tracker once it holds record [r]. *)
Definition resolvedAs (t : Tracker T Host) (options : Options T Host)
    (r : SessionInfo T) (created : bool) : Tracker T Host :=
  mkTracker (effectiveKey t options) (Some r)
            (opt_sessionIdGenerator options)
            (opt_sessionStartedCallback options)
            (opt_newTabOpenedCallback options)
            created.

Definition incremented (r : SessionInfo T) : SessionInfo T :=
  mkSessionInfo (id r) (tab r + 1).

Definition decremented (r : SessionInfo T) : SessionInfo T :=
  mkSessionInfo (id r) (tab r - 1).

(** As long as the host's functions return, the flag [newSessionCreated]
    is never raised on a tracker that stays without a record, so
    [unresolved] describes every tracker whose [sessionInfo] is still
    [null], a newly created one first of all. *)
Definition flagSound (t : Tracker T Host) : Prop :=
  sessionInfo t = None → newSessionCreated t = false.

(** A computation that returns, and one that throws [e]. *)
Definition returns {A : Type} (c : Completion T Host A) : Prop :=
  match c with
  | Normal _ _ => True
  | Abrupt _ _ => False
  end.

Definition raises {A : Type} (e : JsError) (c : Completion T Host A) : Prop :=
  match c with
  | Normal _ _ => False
  | Abrupt e' _ => e' = e
  end.

End Vocabulary.

(** * The life of a tab

    Vocabulary for what goes on around one tracker: the calls the page
    makes over time, what other code does to the stores, further tabs of
    the same browser. *)

Section Lifecycle.

Context {T Host : Type}.

(** The key a call of the storage service was made with. *)
Definition callKey (c : Call T) : option JsString :=
  match c with
  | SessionStorageGet key | SessionStorageSet key _
  | SessionCookieGet key | SessionCookieSet key _ => Some key
  | _ => None
  end.

(** The resolution [generateSessionInfo] in closed form, on a tracker whose
    options are set: the record, the flag [newSessionCreated] and the
    world it ends with. *)
Definition resolutionOutcome (t : Tracker T Host) (g : SessionIdGenerator)
    (w : World T Host) : SessionInfo T * bool * World T Host :=
  let key := storageKeyName t in
  match perTab w key with
  | Some r => (r, newSessionCreated t, logged w [SessionStorageGet key])
  | None =>
      let w1 := logged w [SessionStorageGet key; SessionCookieGet key] in
      match crossTab w key with
      | Some r =>
          (incremented r, newSessionCreated t,
           registered (newTabOpenedCallback t) key (incremented r) w1)
      | None =>
          let r := mkSessionInfo (fst (g (host w))) 1 in
          (r, true, registered (newTabOpenedCallback t) key r (minted g w1))
      end
  end.

(** [initialize] in closed form. *)
Definition initializeOutcome (t : Tracker T Host) (w : World T Host)
    (options : Options T Host) : Completion T Host unit :=
  match sessionInfo t with
  | Some _ => Normal () (mkState t (hooked w))
  | None =>
      match opt_sessionIdGenerator options with
      | None => Abrupt ConfigurationError (mkState t w)
      | Some g =>
          if keyRejected options
          then Abrupt InvalidKeyError
                 (mkState (mkTracker (storageKeyName t) None (Some g)
                                     (opt_sessionStartedCallback options)
                                     (opt_newTabOpenedCallback options)
                                     (newSessionCreated t)) w)
          else
            let '(r, created, w1) := resolutionOutcome (configured t options) g w in
            Normal ()
              (mkState (resolvedAs t options r created)
                 (hooked (if created
                          then announced (opt_sessionStartedCallback options) r w1
                          else w1)))
      end
  end.

(** What can happen while a tab lives: the page calls [initialize], the
    browser fires [beforeunload], or other code (another tab, the page
    itself) leaves the two stores with some other content.  A call that
    throws leaves the state it had reached. *)
Inductive Happening : Type :=
  | CallInitialize (options : Options T Host)
  | FireBeforeUnload
  | StoresRewritten (perTabStore crossTabStore : gmap JsString (Item T)).

Definition happen (s : State T Host) (e : Happening) : State T Host :=
  match e with
  | CallInitialize options => final (initialize options s)
  | FireBeforeUnload => final (beforeunload s)
  | StoresRewritten ss ck =>
      mkState (this s)
        (mkWorld ss ck (onbeforeunload (world s)) (host (world s))
                 (calls (world s)))
  end.

Definition history (es : list Happening) (s : State T Host) : State T Host :=
  foldl happen s es.

(** [beforeunload] fired [n] times in a row. *)
Definition fireTimes (n : nat) (s : State T Host) : State T Host :=
  Nat.iter n (λ s', final (beforeunload s')) s.




End Lifecycle.

Global Arguments Happening : clear implicits.

(** * Scenarios

    Concrete trackers and browsers: session ids are strings, the host
    counts the ids it has handed out. *)

Module Scenario.

Definition uuid : @SessionIdGenerator string nat := λ h, ("minted", S h).
Definition onStarted : @SessionStartedCallback string nat := λ _ _ h, h.
Definition onOpened : @NewTabOpenedCallback nat := λ _ h, h.

Definition allOptions : Options string nat :=
  mkOptions (Some uuid) (Some onStarted) (Some onOpened) None.

Definition freshTracker : Tracker string nat := new_BrowserTabTracker.

(** Nothing stored yet. *)
Definition emptyBrowser : World string nat := mkWorld ∅ ∅ false 0%nat [].

(** Another tab has opened session "S". *)
Definition oneTabOpen : World string nat :=
  mkWorld ∅ {[DEFAULT_STORAGE_KEY := Json (mkSessionInfo "S" 1)]} false 0%nat [].

(** This tab was tab 2 of session "S" and is being reloaded. *)
Definition reloading : World string nat :=
  mkWorld {[DEFAULT_STORAGE_KEY := Json (mkSessionInfo "S" 2)]}
          {[DEFAULT_STORAGE_KEY := Json (mkSessionInfo "S" 2)]} false 0%nat [].

(** The state after the second tab of session "S" has initialized. *)
Definition secondTab : State string nat :=
  final (initialize allOptions (mkState freshTracker oneTabOpen)).

(** A third tab joins: the cross-tab record becomes [{id: "S", tab: 3}]. *)
Definition thirdTabJoined (s : State string nat) : State string nat :=
  mkState (this s)
    (mkWorld (sessionStorage (world s))
             (<[DEFAULT_STORAGE_KEY := Json (mkSessionInfo "S" 3)]> (cookies (world s)))
             (onbeforeunload (world s)) (host (world s)) (calls (world s))).

(** The page empties both stores. *)
Definition storesCleared (s : State string nat) : State string nat :=
  mkState (this s)
    (mkWorld ∅ ∅ (onbeforeunload (world s)) (host (world s)) (calls (world s))).

(** An override that is the empty string, and one that is a space and a
    tab. *)
Definition emptyKeyOptions : Options string nat :=
  mkOptions (Some uuid) None None (Some []).

Definition blankKeyOptions : Options string nat :=
  mkOptions (Some uuid) None None (Some [32%N; 9%N]).

Definition noGeneratorOptions : Options string nat :=
  mkOptions None (Some onStarted) (Some onOpened) None.

(** The runs the scenarios are about. *)
Definition firstTabRun : Completion string nat unit :=
  initialize allOptions (mkState freshTracker emptyBrowser).

Definition secondTabRun : Completion string nat unit :=
  initialize allOptions (mkState freshTracker oneTabOpen).

Definition reloadRun : Completion string nat unit :=
  initialize allOptions (mkState freshTracker reloading).

Definition secondInitializeRun : Completion string nat unit :=
  initialize allOptions (mkState (this secondTab) (world secondTab)).

Definition noGeneratorRun : Completion string nat unit :=
  initialize noGeneratorOptions (mkState freshTracker emptyBrowser).

Definition emptyKeyRun : Completion string nat unit :=
  initialize emptyKeyOptions (mkState freshTracker emptyBrowser).

Definition blankKeyRun : Completion string nat unit :=
  initialize blankKeyOptions (mkState freshTracker emptyBrowser).

(** The second tab closes after the third has joined. *)
Definition closingTracker : Tracker string nat := this (thirdTabJoined secondTab).
Definition closingBrowser : World string nat := world (thirdTabJoined secondTab).

Definition unloadAfterThirdTab : Completion string nat unit :=
  beforeunload (mkState closingTracker closingBrowser).

Definition unloadAfterClear : Completion string nat unit :=
  beforeunload (storesCleared secondTab).






(** A whole life: unload, a second [initialize], the page emptying both
    stores, unload again. *)
Definition eventfulLife : list (Happening string nat) :=
  [FireBeforeUnload; CallInitialize allOptions; StoresRewritten ∅ ∅;
   FireBeforeUnload].

(** An override that [validateKey] accepts. *)
Definition customKey : JsString := code_units "my key".

Definition customKeyOptions : Options string nat :=
  mkOptions (Some uuid) (Some onStarted) (Some onOpened) (Some customKey).

Definition customKeyRun : Completion string nat unit :=
  initialize customKeyOptions (mkState freshTracker emptyBrowser).

(** A retry with good options after the blank key was refused. *)
Definition retryRun : Completion string nat unit :=
  initialize allOptions (final blankKeyRun).

(** The page is reloaded: a new tracker over the world the second tab left. *)
Definition reloadAfterSecondTab : Completion string nat unit :=
  initialize allOptions (mkState freshTracker (world (final secondTabRun))).

(** One more tab opens after the second. *)
Definition afterSecondTab : World string nat :=
  mkWorld ∅ (cookies (world (final secondTabRun))) false 0%nat [].

Definition tabAfterSecondTab : Completion string nat unit :=
  initialize allOptions (mkState freshTracker afterSecondTab).

(** The second tab closes right after it opened. *)
Definition closeAfterSecondTab : Completion string nat unit :=
  beforeunload (final secondTabRun).

(** The second tab is reloaded: its unload handler has run, and a new
    tracker starts over the per-tab store the handler left. *)
Definition afterUnload : World string nat :=
  mkWorld (sessionStorage (world (final unloadAfterThirdTab)))
          (cookies (world (final unloadAfterThirdTab))) false 0%nat [].

Definition reloadAfterUnload : Completion string nat unit :=
  initialize allOptions (mkState freshTracker afterUnload).

(** A tab opens after the second tab has closed. *)
Definition afterClose : World string nat :=
  mkWorld ∅ (cookies (world (final unloadAfterThirdTab))) false 0%nat [].

Definition tabAfterClose : Completion string nat unit :=
  initialize allOptions (mkState freshTracker afterClose).

End Scenario.

(** * Symbolic execution

    Method bodies are run by unfolding them, the monad and the record
    projections, and nothing else: lookups in the stores stay folded and
    are rewritten with the hypotheses about the stores. *)

Ltac exec :=
  cbv [initialize generateSessionInfo generateNewTabId startNewSession
       onTabClose listenOnTabCloseEvent beforeunload validateKey
       validateSessionIdGenerator tabId sessionId storageKey
       sessionStorageGet sessionStorageSet sessionCookieGet sessionCookieSet
       call_sessionIdGenerator call_sessionStartedCallback
       call_newTabOpenedCallback record
       set_storageKeyName set_sessionInfo set_sessionIdGenerator
       set_sessionStartedCallback set_newTabOpenedCallback
       set_newSessionCreated
       throw getThis getWorld putThis putWorld final
       mbind mret M_bind M_ret
       this world storageKeyName sessionInfo sessionIdGenerator
       sessionStartedCallback newTabOpenedCallback newSessionCreated
       opt_sessionIdGenerator opt_sessionStartedCallback
       opt_newTabOpenedCallback opt_storageKey
       sessionStorage cookies onbeforeunload host calls id tab
       perTab crossTab logged configured effectiveKey keyRejected unresolved
       hooked minted registered announced resolvedAs incremented decremented].

(** The same, keeping the resolution [generateSessionInfo] folded. *)
Ltac exec_top :=
  cbv [initialize listenOnTabCloseEvent validateKey
       validateSessionIdGenerator tabId sessionId
       call_sessionStartedCallback record
       set_storageKeyName set_sessionInfo set_sessionIdGenerator
       set_sessionStartedCallback set_newTabOpenedCallback
       throw getThis getWorld putThis putWorld final
       mbind mret M_bind M_ret
       this world storageKeyName sessionInfo sessionIdGenerator
       sessionStartedCallback newTabOpenedCallback newSessionCreated
       opt_sessionIdGenerator opt_sessionStartedCallback
       opt_newTabOpenedCallback opt_storageKey
       sessionStorage cookies onbeforeunload host calls id tab
       configured effectiveKey keyRejected hooked announced].

(** Brings a hypothesis about a state to the same form. *)
Ltac exec_in H :=
  cbv [perTab crossTab logged configured effectiveKey keyRejected unresolved
       hooked minted registered announced resolvedAs incremented decremented
       this world storageKeyName sessionInfo sessionIdGenerator
       sessionStartedCallback newTabOpenedCallback newSessionCreated
       opt_sessionIdGenerator opt_sessionStartedCallback
       opt_newTabOpenedCallback opt_storageKey
       sessionStorage cookies onbeforeunload host calls id tab] in H.

Section Paths.

Context {T Host : Type}.
Implicit Types (t : Tracker T Host) (w : World T Host) (s : State T Host).
Implicit Types (options : Options T Host) (r : SessionInfo T) (key : JsString).

(** ** [generateSessionInfo], path by path *)

Lemma generateSessionInfo_reload t w r :
  perTab w (storageKeyName t) = Some r →
  generateSessionInfo (mkState t w)
  = Normal r (mkState t (logged w [SessionStorageGet (storageKeyName t)])).
Proof.
  destruct t, w. intros H. exec_in H. exec. rewrite H. reflexivity.
Qed.

Lemma generateSessionInfo_new_tab t w r :
  perTab w (storageKeyName t) = None →
  crossTab w (storageKeyName t) = Some r →
  generateSessionInfo (mkState t w)
  = Normal (incremented r)
      (mkState t
         (registered (newTabOpenedCallback t) (storageKeyName t) (incremented r)
            (logged w [SessionStorageGet (storageKeyName t);
                       SessionCookieGet (storageKeyName t)]))).
Proof.
  destruct t as [k si g cb1 cb2 b], w. intros H1 H2. exec_in H1. exec_in H2.
  exec. rewrite H1. exec. rewrite H2.
  destruct cb2; exec; rewrite <- ?app_assoc; reflexivity.
Qed.

Lemma generateSessionInfo_new_session t w g :
  perTab w (storageKeyName t) = None →
  crossTab w (storageKeyName t) = None →
  sessionIdGenerator t = Some g →
  generateSessionInfo (mkState t w)
  = let w1 := minted g (logged w [SessionStorageGet (storageKeyName t);
                                  SessionCookieGet (storageKeyName t)]) in
    let r := mkSessionInfo (fst (g (host w))) 1 in
    Normal r
      (mkState (mkTracker (storageKeyName t) (sessionInfo t) (Some g)
                          (sessionStartedCallback t) (newTabOpenedCallback t) true)
               (registered (newTabOpenedCallback t) (storageKeyName t) r w1)).
Proof.
  destruct t as [k si g0 cb1 cb2 b], w as [ss ck hk h cs].
  intros H1 H2 Hg. exec_in H1. exec_in H2. exec_in Hg. subst g0.
  exec. rewrite H1. exec. rewrite H2. exec.
  destruct (g h) as [newId h1]. cbn [fst snd].
  destruct cb2; exec; rewrite <- ?app_assoc; reflexivity.
Qed.

(** ** [initialize], guard by guard *)

(** Already resolved: only the hook is assigned again. *)
Lemma initialize_resolved t w options r :
  sessionInfo t = Some r →
  initialize options (mkState t w) = Normal () (mkState t (hooked w)).
Proof.
  destruct t, w. intros H. exec_in H. subst. reflexivity.
Qed.

Lemma initialize_no_generator t w options :
  sessionInfo t = None →
  opt_sessionIdGenerator options = None →
  initialize options (mkState t w) = Abrupt ConfigurationError (mkState t w).
Proof.
  destruct t, w, options. intros H1 H2. exec_in H1. exec_in H2. subst.
  reflexivity.
Qed.

Lemma initialize_key_rejected t w options g :
  sessionInfo t = None →
  opt_sessionIdGenerator options = Some g →
  keyRejected options = true →
  initialize options (mkState t w)
  = Abrupt InvalidKeyError
      (mkState (mkTracker (storageKeyName t) None (Some g)
                          (opt_sessionStartedCallback options)
                          (opt_newTabOpenedCallback options)
                          (newSessionCreated t)) w).
Proof.
  destruct t, w, options as [g0 c1 c2 [[|c key]|]]; intros H1 H2 H3;
    exec_in H1; exec_in H2; exec_in H3; subst; try discriminate.
  exec_top. cbn [isFalsyString negb andb orb] in *. rewrite H3. reflexivity.
Qed.

(** Options accepted: the fields are set, the resolution runs under the
    effective key, its record is adopted, a session minted on the way is
    announced, and the hook is assigned. *)
Lemma initialize_unresolved t w options g :
  sessionInfo t = None →
  opt_sessionIdGenerator options = Some g →
  keyRejected options = false →
  initialize options (mkState t w)
  = match generateSessionInfo (mkState (configured t options) w) with
    | Normal r s' =>
        let t' := this s' in
        Normal ()
          (mkState
             (mkTracker (storageKeyName t') (Some r) (sessionIdGenerator t')
                        (sessionStartedCallback t') (newTabOpenedCallback t')
                        (newSessionCreated t'))
             (hooked (if newSessionCreated t'
                      then announced (sessionStartedCallback t') r (world s')
                      else world s')))
    | Abrupt e s' => Abrupt e s'
    end.
Proof.
  destruct t as [k si g0 c1 c2 b], w, options as [g1 o1 o2 [[|c key]|]];
    intros H1 H2 H3; exec_in H1; exec_in H2; exec_in H3; subst.
  all: unfold initialize; exec_top; fold (@generateSessionInfo T Host).
  all: cbn [isFalsyString negb andb orb] in *; rewrite ?H3.
  all: match goal with |- context [generateSessionInfo ?s] =>
         destruct (generateSessionInfo s) as [r [[k' si' g' c1' c2' b'] w']|e s']
       end; [|reflexivity].
  all: destruct w'; exec_top; destruct b'; [destruct c1'|]; reflexivity.
Qed.

(** ** [initialize], path by path *)

Lemma initialize_reload t w options g r :
  unresolved t →
  opt_sessionIdGenerator options = Some g →
  keyRejected options = false →
  perTab w (effectiveKey t options) = Some r →
  initialize options (mkState t w)
  = Normal ()
      (mkState (resolvedAs t options r false)
               (hooked (logged w [SessionStorageGet (effectiveKey t options)]))).
Proof.
  intros [Hsi Hnew] Hg Hkey Hss.
  rewrite (initialize_unresolved _ _ _ g) by assumption.
  rewrite (generateSessionInfo_reload _ _ r) by exact Hss.
  destruct t; cbn in Hsi, Hnew; subst. reflexivity.
Qed.

Lemma initialize_new_tab t w options g r :
  unresolved t →
  opt_sessionIdGenerator options = Some g →
  keyRejected options = false →
  perTab w (effectiveKey t options) = None →
  crossTab w (effectiveKey t options) = Some r →
  initialize options (mkState t w)
  = Normal ()
      (mkState (resolvedAs t options (incremented r) false)
         (hooked
            (registered (opt_newTabOpenedCallback options)
               (effectiveKey t options) (incremented r)
               (logged w [SessionStorageGet (effectiveKey t options);
                          SessionCookieGet (effectiveKey t options)])))).
Proof.
  intros [Hsi Hnew] Hg Hkey Hss Hck.
  rewrite (initialize_unresolved _ _ _ g) by assumption.
  rewrite (generateSessionInfo_new_tab _ _ r) by assumption.
  destruct t; cbn in Hsi, Hnew; subst. reflexivity.
Qed.

Lemma initialize_new_session t w options g :
  unresolved t →
  opt_sessionIdGenerator options = Some g →
  keyRejected options = false →
  perTab w (effectiveKey t options) = None →
  crossTab w (effectiveKey t options) = None →
  initialize options (mkState t w)
  = let r := mkSessionInfo (fst (g (host w))) 1 in
    Normal ()
      (mkState (resolvedAs t options r true)
         (hooked
            (announced (opt_sessionStartedCallback options) r
               (registered (opt_newTabOpenedCallback options)
                  (effectiveKey t options) r
                  (minted g
                     (logged w [SessionStorageGet (effectiveKey t options);
                                SessionCookieGet (effectiveKey t options)])))))).
Proof.
  intros [Hsi Hnew] Hg Hkey Hss Hck.
  rewrite (initialize_unresolved _ _ _ g) by assumption.
  rewrite (generateSessionInfo_new_session _ _ g) by assumption.
  unfold resolvedAs. rewrite Hg.
  destruct t; cbn in Hsi, Hnew; subst. reflexivity.
Qed.

(** ** The handler of [beforeunload] *)

Lemma onTabClose_present t w r :
  perTab w (storageKeyName t) = Some r →
  onTabClose (mkState t w)
  = Normal ()
      (mkState t
         (registered None (storageKeyName t) (decremented r)
            (logged w [SessionStorageGet (storageKeyName t)]))).
Proof.
  destruct t, w. intros H. exec_in H. exec. rewrite H. exec.
  rewrite <- ?app_assoc. reflexivity.
Qed.

Lemma onTabClose_absent t w :
  perTab w (storageKeyName t) = None →
  onTabClose (mkState t w)
  = Abrupt TypeError (mkState t (logged w [SessionStorageGet (storageKeyName t)])).
Proof.
  destruct t, w. intros H. exec_in H. exec. rewrite H. reflexivity.
Qed.

(** ** What every run of [initialize] keeps *)

Lemma new_BrowserTabTracker_flagSound : flagSound (@new_BrowserTabTracker T Host).
Proof. intros _. reflexivity. Qed.

Lemma initialize_flagSound t w options :
  flagSound t → flagSound (this (final (initialize options (mkState t w)))).
Proof.
  intros Hwf. destruct (sessionInfo t) as [r|] eqn:Hsi.
  - rewrite (initialize_resolved _ _ _ r) by assumption. exact Hwf.
  - destruct (opt_sessionIdGenerator options) as [g|] eqn:Hg.
    + destruct (keyRejected options) eqn:Hkey.
      * rewrite (initialize_key_rejected _ _ _ g) by assumption.
        intros _. cbn. exact (Hwf Hsi).
      * rewrite (initialize_unresolved _ _ _ g) by assumption.
        destruct (perTab w (effectiveKey t options)) as [r|] eqn:Hss.
        { rewrite (generateSessionInfo_reload _ _ r) by exact Hss.
          intros H. discriminate H. }
        destruct (crossTab w (effectiveKey t options)) as [r|] eqn:Hck.
        { rewrite (generateSessionInfo_new_tab _ _ r) by assumption.
          intros H. discriminate H. }
        rewrite (generateSessionInfo_new_session _ _ g) by first [assumption|reflexivity].
        intros H. discriminate H.
    + rewrite initialize_no_generator by assumption. exact Hwf.
Qed.

End Paths.

(** * The resolution of a tab's identity *)

(** Reads off the calls made by a run whose final state is explicit. *)
Ltac calls_made :=
  cbv [newCalls final world calls hooked announced registered minted logged
       resolvedAs];
  rewrite <- ?app_assoc, ?drop_app_length, ?drop_all.

Section Resolution.

Context {T Host : Type}.
Implicit Types (t : Tracker T Host) (w : World T Host).
Implicit Types (options : Options T Host) (key : JsString).



(** C6.  Reload: when the per-tab store holds [{id: S, tab: n}] at the
    storage key, [initialize] returns having adopted exactly that record
    (tab number n, session id S) with no call of [sessionStartedCallback],
    of [newTabOpenedCallback] or of the generator: the host is as it
    was. *)
Theorem reload_adopts_record t w options g (S : T) (n : Z) :
  unresolved t →
  opt_sessionIdGenerator options = Some g →
  keyRejected options = false →
  perTab w (effectiveKey t options) = Some (mkSessionInfo S n) →
  let c := initialize options (mkState t w) in
  returns c
  ∧ sessionInfo (this (final c)) = Some (mkSessionInfo S n)
  ∧ tabId (final c) = Normal n (final c)
  ∧ sessionId (final c) = Normal S (final c)
  ∧ sessionStartedArgs (newCalls (mkState t w) c) = []
  ∧ newTabOpenedArgs (newCalls (mkState t w) c) = []
  ∧ generatorResults (newCalls (mkState t w) c) = []
  ∧ host (world (final c)) = host w.
Proof.
  intros Ht Hg Hkey Hss c. subst c.
  rewrite (initialize_reload _ _ _ g (mkSessionInfo S n)) by assumption.
  destruct w as [ss ck hk h cs].
  repeat split; calls_made; reflexivity.
Qed.


(** C10.  Reload writes nothing: when the per-tab store holds a record at
    the storage key, [initialize] leaves the content of the per-tab store
    and of the cross-tab store as it found them, and calls no set of the
    storage service. *)
Theorem reload_writes_nothing t w options r :
  perTab w (effectiveKey t options) = Some r →
  let c := initialize options (mkState t w) in
  sessionStorage (world (final c)) = sessionStorage w
  ∧ cookies (world (final c)) = cookies w
  ∧ List.filter isStoreWrite (newCalls (mkState t w) c) = [].
Proof.
  intros Hss c. subst c.
  destruct (sessionInfo t) as [r0|] eqn:Hsi.
  { rewrite (initialize_resolved _ _ _ r0) by assumption.
    destruct w. repeat split. calls_made. reflexivity. }
  destruct (opt_sessionIdGenerator options) as [g|] eqn:Hg.
  2: { rewrite initialize_no_generator by assumption.
       destruct w. repeat split. calls_made. reflexivity. }
  destruct (keyRejected options) eqn:Hkey.
  { rewrite (initialize_key_rejected _ _ _ g) by assumption.
    destruct w. repeat split. calls_made. reflexivity. }
  rewrite (initialize_unresolved _ _ _ g) by assumption.
  rewrite (generateSessionInfo_reload _ _ r) by exact Hss.
  destruct w, (newSessionCreated t) eqn:Hb,
    (opt_sessionStartedCallback options) eqn:Hcb;
    cbv [this configured newSessionCreated sessionStartedCallback world] in *;
    rewrite ?Hb, ?Hcb; repeat split; calls_made; reflexivity.
Qed.

End Resolution.

(** * Guards of [initialize] *)

Section Guards.

Context {T Host : Type}.
Implicit Types (t : Tracker T Host) (w : World T Host).
Implicit Types (options : Options T Host) (key : JsString).

(** C7.  [initialize] is idempotent: on a tracker that holds a resolved
    record, a further call, whatever its options, returns and leaves every
    field of the tracker (its record and its storage key among them), both
    stores and the host as they were; the only thing it does is assign the
    unload hook again: no get or set of a store, no callback, no call of
    the generator. *)
Theorem initialize_idempotent t w options r :
  sessionInfo t = Some r →
  let c := initialize options (mkState t w) in
  returns c
  ∧ this (final c) = t
  ∧ sessionStorage (world (final c)) = sessionStorage w
  ∧ cookies (world (final c)) = cookies w
  ∧ host (world (final c)) = host w
  ∧ onbeforeunload (world (final c)) = true
  ∧ newCalls (mkState t w) c = [OnBeforeUnloadAssigned].
Proof.
  intros Hsi c. subst c.
  rewrite (initialize_resolved _ _ _ r) by assumption.
  destruct w. repeat split. calls_made. reflexivity.
Qed.

(** C8.  Missing generator: on a tracker without a record, [initialize]
    with no [sessionIdGenerator] raises the configuration error before any
    get or set of either store, and leaves the tracker (still without a
    record) and its environment unchanged. *)
Theorem missing_generator_rejected t w options :
  sessionInfo t = None →
  opt_sessionIdGenerator options = None →
  let c := initialize options (mkState t w) in
  raises ConfigurationError c
  ∧ final c = mkState t w
  ∧ sessionInfo (this (final c)) = None
  ∧ newCalls (mkState t w) c = [].
Proof.
  intros Hsi Hg c. subst c.
  rewrite initialize_no_generator by assumption.
  repeat split; [exact Hsi|]. destruct w. calls_made. reflexivity.
Qed.

(** C2, as the code has it.  On a tracker without a record and with a
    generator supplied, every [storageKey] override that is not empty and
    consists of whitespace only makes [initialize] raise the invalid-key
    error; the storage key of the tracker is not changed, no record is
    resolved and the environment is untouched. *)
Theorem blank_key_rejected t w options g key :
  sessionInfo t = None →
  opt_sessionIdGenerator options = Some g →
  opt_storageKey options = Some key →
  key ≠ [] →
  Forall (λ c, isWhiteSpace c = true) key →
  let c := initialize options (mkState t w) in
  raises InvalidKeyError c
  ∧ storageKeyName (this (final c)) = storageKeyName t
  ∧ sessionInfo (this (final c)) = None
  ∧ world (final c) = w.
Proof.
  intros Hsi Hg Hk Hne Hws c. subst c.
  assert (Hrej : keyRejected options = true).
  { unfold keyRejected. rewrite Hk.
    destruct key as [|c0 key]; [congruence|]. cbn [isFalsyString negb andb].
    unfold REGEX_EMPTY_STRING_test. apply forallb_forall.
    intros c Hc. rewrite Forall_forall in Hws. apply Hws.
    apply list_elem_of_In. exact Hc. }
  rewrite (initialize_key_rejected _ _ _ g) by assumption.
  repeat split.
Qed.

End Guards.

(** * The unload hook *)

Section Unload.

Context {T Host : Type}.
Implicit Types (t : Tracker T Host) (w : World T Host).
Implicit Types (options : Options T Host) (key : JsString).

(** A tracker that [initialize] has just resolved finds its own record in
    the per-tab store, and its handler in [window.onbeforeunload]. *)
Lemma initialize_stores_record t w options s' :
  sessionInfo t = None →
  initialize options (mkState t w) = Normal () s' →
  perTab (world s') (storageKeyName (this s')) = sessionInfo (this s')
  ∧ is_Some (sessionInfo (this s'))
  ∧ onbeforeunload (world s') = true.
Proof.
  intros Hsi.
  destruct (opt_sessionIdGenerator options) as [g|] eqn:Hg.
  2: { rewrite initialize_no_generator by assumption. discriminate. }
  destruct (keyRejected options) eqn:Hkey.
  { rewrite (initialize_key_rejected _ _ _ g) by assumption. discriminate. }
  rewrite (initialize_unresolved _ _ _ g) by assumption.
  destruct (perTab w (effectiveKey t options)) as [r|] eqn:Hss.
  { rewrite (generateSessionInfo_reload _ _ r) by exact Hss.
    intros [= <-]. destruct w, (newSessionCreated t) eqn:Hb,
      (opt_sessionStartedCallback options) eqn:Hcb;
      cbv [this configured newSessionCreated sessionStartedCallback world] in *;
      rewrite ?Hb, ?Hcb; repeat split; eauto. }
  destruct (crossTab w (effectiveKey t options)) as [r|] eqn:Hck.
  { rewrite (generateSessionInfo_new_tab _ _ r) by assumption.
    intros [= <-]. destruct w, (newSessionCreated t) eqn:Hb,
      (opt_sessionStartedCallback options) eqn:Hcb;
      cbv [this configured newSessionCreated sessionStartedCallback world] in *;
      rewrite ?Hb, ?Hcb; repeat split; eauto;
      cbv [perTab world hooked announced registered logged sessionStorage
           storageKeyName]; rewrite lookup_insert_eq; reflexivity. }
  rewrite (generateSessionInfo_new_session _ _ g) by first [assumption | reflexivity].
  intros [= <-]. destruct w, (opt_sessionStartedCallback options) eqn:Hcb;
    cbv [this configured newSessionCreated sessionStartedCallback world] in *;
    rewrite ?Hcb; repeat split; eauto;
    cbv [perTab world hooked announced registered minted logged sessionStorage
         storageKeyName]; rewrite lookup_insert_eq; reflexivity.
Qed.

(** C1, as the code has it.  With the hook installed, firing [beforeunload]
    reads the current record from the per-tab store (the cross-tab store is
    not read, nor the record cached in the tracker), decrements its tab
    number by 1 and writes the decremented record to the cross-tab store
    and to the per-tab store.  The tracker itself is not changed.  The tab
    number read is a safe integer, so that the code's [tab - 1] is exact. *)
Theorem unload_decrements_per_tab_record t w r :
  onbeforeunload w = true →
  perTab w (storageKeyName t) = Some r →
  isSafeInteger (tab r) = true →
  let c := beforeunload (mkState t w) in
  let key := storageKeyName t in
  returns c
  ∧ this (final c) = t
  ∧ perTab (world (final c)) key = Some (decremented r)
  ∧ crossTab (world (final c)) key = Some (decremented r)
  ∧ newCalls (mkState t w) c
    = [SessionStorageGet key;
       SessionCookieSet key (decremented r);
       SessionStorageSet key (decremented r)].
Proof.
  intros Hhook Hss _ c key. subst c key.
  assert (Hrun : beforeunload (mkState t w) = onTabClose (mkState t w)).
  { destruct w. cbn in Hhook. subst. reflexivity. }
  rewrite Hrun, (onTabClose_present _ _ r) by exact Hss.
  destruct w. repeat split; try (calls_made; reflexivity).
  - cbv [perTab final world registered sessionStorage].
    rewrite lookup_insert_eq. reflexivity.
  - cbv [crossTab final world registered cookies].
    rewrite lookup_insert_eq. reflexivity.
Qed.

(** C3, as the code has it.  With the hook installed, firing [beforeunload]
    returns exactly when the per-tab store holds a record at the storage
    key, whatever the cross-tab store holds; when the per-tab record is
    absent the handler raises a [TypeError], which nothing catches, and
    writes to neither store. *)
Theorem unload_raises_iff_record_absent t w :
  onbeforeunload w = true →
  let c := beforeunload (mkState t w) in
  (returns c ↔ is_Some (perTab w (storageKeyName t)))
  ∧ (raises TypeError c ↔ perTab w (storageKeyName t) = None)
  ∧ (perTab w (storageKeyName t) = None →
     sessionStorage (world (final c)) = sessionStorage w
     ∧ cookies (world (final c)) = cookies w).
Proof.
  intros Hhook c. subst c.
  assert (Hrun : beforeunload (mkState t w) = onTabClose (mkState t w)).
  { destruct w. cbn in Hhook. subst. reflexivity. }
  rewrite Hrun.
  destruct (perTab w (storageKeyName t)) as [r|] eqn:Hss.
  - rewrite (onTabClose_present _ _ r) by exact Hss. cbn [returns raises].
    split; [|split].
    + split; [eauto | trivial].
    + split; [intros [] | discriminate].
    + discriminate.
  - rewrite onTabClose_absent by exact Hss. cbn [returns raises].
    split; [|split].
    + split; [intros [] | intros [? Hsome]; discriminate Hsome].
    + split; reflexivity.
    + intros _. destruct w. split; reflexivity.
Qed.

End Unload.

(** * The scenarios, run *)

Section Scenarios.

Import Scenario.



Lemma reload_adopts_record_witness :
  returns reloadRun
  ∧ sessionInfo (this (final reloadRun)) = Some (mkSessionInfo "S" 2)
  ∧ tabId (final reloadRun) = Normal 2 (final reloadRun)
  ∧ sessionId (final reloadRun) = Normal "S" (final reloadRun)
  ∧ sessionStartedArgs (newCalls (mkState freshTracker reloading) reloadRun) = []
  ∧ newTabOpenedArgs (newCalls (mkState freshTracker reloading) reloadRun) = []
  ∧ generatorResults (newCalls (mkState freshTracker reloading) reloadRun) = []
  ∧ host (world (final reloadRun)) = 0%nat.
Proof.
  exact (reload_adopts_record freshTracker reloading allOptions uuid "S" 2
           (conj eq_refl eq_refl) eq_refl eq_refl eq_refl).
Defined.

Lemma initialize_idempotent_witness :
  returns secondInitializeRun
  ∧ this (final secondInitializeRun) = this secondTab
  ∧ sessionStorage (world (final secondInitializeRun))
    = sessionStorage (world secondTab)
  ∧ cookies (world (final secondInitializeRun)) = cookies (world secondTab)
  ∧ host (world (final secondInitializeRun)) = host (world secondTab)
  ∧ onbeforeunload (world (final secondInitializeRun)) = true
  ∧ newCalls (mkState (this secondTab) (world secondTab)) secondInitializeRun
    = [OnBeforeUnloadAssigned].
Proof.
  apply (initialize_idempotent (this secondTab) (world secondTab)
           allOptions (mkSessionInfo "S" 2)).
  vm_compute. reflexivity.
Defined.

Lemma missing_generator_rejected_witness :
  raises ConfigurationError noGeneratorRun
  ∧ final noGeneratorRun = mkState freshTracker emptyBrowser
  ∧ sessionInfo (this (final noGeneratorRun)) = None
  ∧ newCalls (mkState freshTracker emptyBrowser) noGeneratorRun = [].
Proof.
  exact (missing_generator_rejected freshTracker emptyBrowser
           noGeneratorOptions eq_refl eq_refl).
Defined.


Lemma reload_writes_nothing_witness :
  sessionStorage (world (final reloadRun)) = sessionStorage reloading
  ∧ cookies (world (final reloadRun)) = cookies reloading
  ∧ List.filter isStoreWrite (newCalls (mkState freshTracker reloading) reloadRun)
    = [].
Proof.
  exact (reload_writes_nothing freshTracker reloading allOptions
           (mkSessionInfo "S" 2) eq_refl).
Defined.

(** C2 fails on the empty string: the guard [if (options.storageKey)] takes
    it for no override at all, so [validateKey] never sees it;
    [initialize] returns, under the default key. *)
Lemma empty_key_override_accepted :
  ¬ raises InvalidKeyError emptyKeyRun
  ∧ returns emptyKeyRun
  ∧ storageKeyName (this (final emptyKeyRun)) = DEFAULT_STORAGE_KEY.
Proof.
  vm_compute. repeat split. intros [].
Qed.

Lemma blank_key_rejected_witness :
  raises InvalidKeyError blankKeyRun
  ∧ storageKeyName (this (final blankKeyRun)) = DEFAULT_STORAGE_KEY
  ∧ sessionInfo (this (final blankKeyRun)) = None
  ∧ world (final blankKeyRun) = emptyBrowser.
Proof.
  refine (blank_key_rejected freshTracker emptyBrowser blankKeyOptions
            uuid [32%N; 9%N] eq_refl eq_refl eq_refl _ _).
  - discriminate.
  - repeat constructor.
Defined.

(** C1 fails on its own example: the second tab of session "S" holds
    [{id: "S", tab: 2}], a third tab raises the cross-tab record to
    [{id: "S", tab: 3}], and the unload of the second tab leaves
    [{id: "S", tab: 1}] in the cross-tab store, not [{id: "S", tab: 2}]. *)
Lemma unload_ignores_cross_tab_update :
  sessionInfo closingTracker = Some (mkSessionInfo "S" 2)
  ∧ crossTab closingBrowser DEFAULT_STORAGE_KEY = Some (mkSessionInfo "S" 3)
  ∧ crossTab (world (final unloadAfterThirdTab)) DEFAULT_STORAGE_KEY
    = Some (mkSessionInfo "S" 1)
  ∧ crossTab (world (final unloadAfterThirdTab)) DEFAULT_STORAGE_KEY
    ≠ Some (mkSessionInfo "S" 2).
Proof.
  vm_compute. repeat split. discriminate.
Qed.

Lemma unload_decrements_per_tab_record_witness :
  returns unloadAfterThirdTab
  ∧ this (final unloadAfterThirdTab) = closingTracker
  ∧ perTab (world (final unloadAfterThirdTab)) DEFAULT_STORAGE_KEY
    = Some (mkSessionInfo "S" 1)
  ∧ crossTab (world (final unloadAfterThirdTab)) DEFAULT_STORAGE_KEY
    = Some (mkSessionInfo "S" 1)
  ∧ newCalls (mkState closingTracker closingBrowser) unloadAfterThirdTab
    = [SessionStorageGet DEFAULT_STORAGE_KEY;
       SessionCookieSet DEFAULT_STORAGE_KEY (mkSessionInfo "S" 1);
       SessionStorageSet DEFAULT_STORAGE_KEY (mkSessionInfo "S" 1)].
Proof.
  exact (unload_decrements_per_tab_record closingTracker closingBrowser
           (mkSessionInfo "S" 2) eq_refl eq_refl eq_refl).
Defined.

(** C3 fails when the per-tab record is gone: after the page has emptied
    both stores, the unload of a resolved tracker raises a [TypeError]. *)
Lemma unload_raises_on_cleared_stores :
  is_Some (sessionInfo (this (storesCleared secondTab)))
  ∧ onbeforeunload (world (storesCleared secondTab)) = true
  ∧ raises TypeError unloadAfterClear
  ∧ ¬ returns unloadAfterClear.
Proof.
  vm_compute. repeat split; eauto.
Qed.

Lemma unload_raises_iff_record_absent_witness :
  (returns unloadAfterThirdTab
   ↔ is_Some (perTab closingBrowser DEFAULT_STORAGE_KEY))
  ∧ (raises TypeError unloadAfterThirdTab
     ↔ perTab closingBrowser DEFAULT_STORAGE_KEY = None)
  ∧ (perTab closingBrowser DEFAULT_STORAGE_KEY = None →
     sessionStorage (world (final unloadAfterThirdTab))
     = sessionStorage closingBrowser
     ∧ cookies (world (final unloadAfterThirdTab)) = cookies closingBrowser).
Proof.
  exact (unload_raises_iff_record_absent closingTracker closingBrowser eq_refl).
Defined.

End Scenarios.

(** * Beyond the resolution: outcomes, frames and lifetimes *)

Section Outcomes.

Context {T Host : Type}.
Implicit Types (t : Tracker T Host) (w : World T Host) (s : State T Host).
Implicit Types (options : Options T Host) (r : SessionInfo T) (key : JsString).

(** Every run of [initialize] is one of the six the closed form lists. *)
Lemma initialize_outcome t w options :
  initialize options (mkState t w) = initializeOutcome t w options.
Proof.
  unfold initializeOutcome.
  destruct (sessionInfo t) as [r0|] eqn:Hsi.
  { apply (initialize_resolved _ _ _ r0 Hsi). }
  destruct (opt_sessionIdGenerator options) as [g|] eqn:Hg.
  2: { apply initialize_no_generator; assumption. }
  destruct (keyRejected options) eqn:Hkey.
  { apply (initialize_key_rejected _ _ _ g); assumption. }
  rewrite (initialize_unresolved _ _ _ g) by assumption.
  unfold resolutionOutcome.
  change (storageKeyName (configured t options)) with (effectiveKey t options).
  destruct (perTab w (effectiveKey t options)) as [r|] eqn:Hss.
  { rewrite (generateSessionInfo_reload _ _ r) by exact Hss.
    cbv [this world configured resolvedAs storageKeyName sessionIdGenerator
         sessionStartedCallback newTabOpenedCallback newSessionCreated].
    rewrite Hg. reflexivity. }
  destruct (crossTab w (effectiveKey t options)) as [r|] eqn:Hck.
  { rewrite (generateSessionInfo_new_tab _ _ r) by assumption.
    cbv [this world configured resolvedAs storageKeyName sessionIdGenerator
         sessionStartedCallback newTabOpenedCallback newSessionCreated].
    rewrite Hg. reflexivity. }
  rewrite (generateSessionInfo_new_session _ _ g) by first [assumption | reflexivity].
  cbv [this world configured resolvedAs storageKeyName sessionIdGenerator
       sessionStartedCallback newTabOpenedCallback newSessionCreated].
  rewrite Hg. reflexivity.
Qed.

Lemma beforeunload_not_installed t w :
  onbeforeunload w = false →
  beforeunload (mkState t w) = Normal () (mkState t w).
Proof. destruct w. cbn. intros ->. reflexivity. Qed.

Lemma beforeunload_installed t w :
  onbeforeunload w = true →
  beforeunload (mkState t w) = onTabClose (mkState t w).
Proof. destruct w. cbn. intros ->. reflexivity. Qed.

(** The handler of [beforeunload] assigns no field of the tracker and
    leaves [window.onbeforeunload] as it is. *)
Lemma beforeunload_this s : this (final (beforeunload s)) = this s.
Proof.
  destruct s as [t w]. destruct (onbeforeunload w) eqn:Hhook.
  - rewrite beforeunload_installed by assumption.
    destruct (perTab w (storageKeyName t)) as [r|] eqn:Hss.
    + rewrite (onTabClose_present _ _ r) by exact Hss. reflexivity.
    + rewrite onTabClose_absent by exact Hss. reflexivity.
  - rewrite beforeunload_not_installed by assumption. reflexivity.
Qed.

Lemma beforeunload_hook s :
  onbeforeunload (world (final (beforeunload s))) = onbeforeunload (world s).
Proof.
  destruct s as [t w]. destruct (onbeforeunload w) eqn:Hhook.
  - rewrite beforeunload_installed by assumption.
    destruct (perTab w (storageKeyName t)) as [r|] eqn:Hss.
    + rewrite (onTabClose_present _ _ r) by exact Hss. destruct w. reflexivity.
    + rewrite onTabClose_absent by exact Hss. destruct w. reflexivity.
  - rewrite beforeunload_not_installed by assumption. reflexivity.
Qed.

(** X1.  The two refusals of [initialize], read off the options, on a
    tracker without a record.  Without a generator the call throws
    'Session ID generator not set', whatever the key (the generator is
    checked first), and tracker and environment are exactly as before.
    With a generator and a refused key it throws 'Invalid storage key':
    the environment is exactly as before (nothing read or written, no
    handler assigned, no host function called), the tracker has no record,
    keeps its storage key and its flag, but has already taken the
    generator and the two callbacks of the refused options.  And
    [initialize] returns only if the options carried a generator and no
    refused key. *)
Theorem refusal_leaves_no_trace t w options :
  sessionInfo t = None →
  let c := initialize options (mkState t w) in
  (opt_sessionIdGenerator options = None →
   raises ConfigurationError c ∧ final c = mkState t w)
  ∧ (is_Some (opt_sessionIdGenerator options) →
     keyRejected options = true →
     raises InvalidKeyError c
     ∧ world (final c) = w
     ∧ sessionInfo (this (final c)) = None
     ∧ storageKeyName (this (final c)) = storageKeyName t
     ∧ newSessionCreated (this (final c)) = newSessionCreated t
     ∧ sessionIdGenerator (this (final c)) = opt_sessionIdGenerator options
     ∧ sessionStartedCallback (this (final c)) = opt_sessionStartedCallback options
     ∧ newTabOpenedCallback (this (final c)) = opt_newTabOpenedCallback options)
  ∧ (returns c →
     is_Some (opt_sessionIdGenerator options) ∧ keyRejected options = false).
Proof.
  intros Hsi c. subst c. rewrite initialize_outcome. unfold initializeOutcome.
  rewrite Hsi.
  destruct (opt_sessionIdGenerator options) as [g|] eqn:Hg.
  2: { split; [intros _; split; reflexivity|].
       split; [intros [? H]; discriminate H | intros []]. }
  split; [discriminate|].
  destruct (keyRejected options) eqn:Hkey.
  { split; [intros _ _; repeat split | intros []]. }
  split; [discriminate|].
  destruct (resolutionOutcome (configured t options) g w) as [[r created] w1].
  intros _. split; [eauto | reflexivity].
Qed.

(** X2.  Once a tracker holds a record, nothing that happens to its tab
    changes any of its fields: further calls of [initialize] with whatever
    options, firings of [beforeunload], rewrites of the two stores.  The
    accessors [tabId], [sessionId] and [storageKey] keep returning what
    they returned first; in particular the unload handler, which
    decrements the stored records, does not decrement [tabId]. *)
Theorem resolved_tracker_never_changes (es : list (Happening T Host)) s r :
  sessionInfo (this s) = Some r →
  this (history es s) = this s
  ∧ tabId (history es s) = Normal (tab r) (history es s)
  ∧ sessionId (history es s) = Normal (id r) (history es s).
Proof.
  intros Hsi.
  assert (Hthis : this (history es s) = this s).
  { revert s Hsi. unfold history.
    induction es as [|e es IH]; intros s Hsi; [reflexivity|].
    cbn [foldl].
    assert (Hstep : this (happen s e) = this s).
    { destruct e as [options| |ss ck]; cbn [happen].
      - destruct s as [t w]. cbn in Hsi.
        rewrite (initialize_resolved _ _ _ r Hsi). reflexivity.
      - apply beforeunload_this.
      - reflexivity. }
    rewrite IH; rewrite Hstep; [reflexivity | exact Hsi]. }
  split; [exact Hthis|].
  unfold tabId, sessionId. cbv [mbind M_bind getThis].
  rewrite Hthis, Hsi. split; reflexivity.
Qed.

(** X4.  A refused call leaves nothing behind that a later call could
    see: after [initialize] was refused for a missing generator or for its
    key, a call with options that carry a generator ends exactly as it
    would have ended had the refused call never been made (the fields the
    refused call had assigned are assigned again). *)
Theorem refused_initialize_is_retryable t w options1 options2 :
  sessionInfo t = None →
  opt_sessionIdGenerator options1 = None ∨ keyRejected options1 = true →
  is_Some (opt_sessionIdGenerator options2) →
  initialize options2 (final (initialize options1 (mkState t w)))
  = initialize options2 (mkState t w).
Proof.
  intros Hsi Hrefused [g2 Hg2].
  rewrite (initialize_outcome t w options1).
  unfold initializeOutcome. rewrite Hsi.
  destruct (opt_sessionIdGenerator options1) as [g|]; [|reflexivity].
  destruct Hrefused as [Hnone|Hkey]; [discriminate Hnone|].
  rewrite Hkey. cbn [final].
  rewrite !initialize_outcome. unfold initializeOutcome.
  cbn [sessionInfo storageKeyName newSessionCreated].
  rewrite Hsi, Hg2. reflexivity.
Qed.

(** Where a returning [initialize] leaves the record it resolved. *)
Lemma initialize_record_stored t w options :
  sessionInfo t = None →
  returns (initialize options (mkState t w)) →
  let s' := final (initialize options (mkState t w)) in
  is_Some (sessionInfo (this s'))
  ∧ storageKeyName (this s') = effectiveKey t options
  ∧ perTab (world s') (effectiveKey t options) = sessionInfo (this s')
  ∧ (perTab w (effectiveKey t options) = None →
     crossTab (world s') (effectiveKey t options) = sessionInfo (this s')).
Proof.
  intros Hsi. rewrite initialize_outcome. unfold initializeOutcome.
  rewrite Hsi.
  destruct (opt_sessionIdGenerator options) as [g|]; [|intros []].
  destruct (keyRejected options); [intros []|].
  unfold resolutionOutcome.
  change (storageKeyName (configured t options)) with (effectiveKey t options).
  destruct (perTab w (effectiveKey t options)) as [r|] eqn:Hss.
  { intros _. destruct w, (newSessionCreated (configured t options)),
      (opt_sessionStartedCallback options);
      cbv [perTab logged announced hooked final world sessionStorage] in *;
      repeat split; eauto; discriminate. }
  destruct (crossTab w (effectiveKey t options)) as [r|] eqn:Hck.
  { intros _. destruct w, (newSessionCreated (configured t options)),
      (opt_sessionStartedCallback options);
      cbv [perTab crossTab logged announced hooked registered final world
           sessionStorage cookies];
      rewrite ?lookup_insert_eq; repeat split; eauto. }
  intros _. destruct w, (opt_sessionStartedCallback options);
    cbv [perTab crossTab logged announced hooked registered minted final world
         sessionStorage cookies];
    rewrite ?lookup_insert_eq; repeat split; eauto.
Qed.

(** X5.  When [initialize] returns on a tracker that had no record, the
    per-tab store holds, at the tracker's storage key, exactly the record
    the tracker now holds; and unless that record was found in the per-tab
    store (a reload), the cross-tab store holds it too. *)
Theorem initialize_persists_record t w options :
  sessionInfo t = None →
  returns (initialize options (mkState t w)) →
  let s' := final (initialize options (mkState t w)) in
  is_Some (sessionInfo (this s'))
  ∧ storageKeyName (this s') = effectiveKey t options
  ∧ perTab (world s') (effectiveKey t options) = sessionInfo (this s')
  ∧ (perTab w (effectiveKey t options) = None →
     crossTab (world s') (effectiveKey t options) = sessionInfo (this s')).
Proof. exact (initialize_record_stored t w options). Qed.

End Outcomes.

(** * Tabs over time *)

Section Composition.

Context {T Host : Type}.
Implicit Types (t : Tracker T Host) (w : World T Host) (s : State T Host).
Implicit Types (options : Options T Host) (r : SessionInfo T) (key : JsString).

(** X6.  Reload round trip: after [initialize] has returned on a tracker
    that had no record, a new tracker that initializes in the same tab,
    under the same key and over the per-tab store as it was left, adopts
    the very record the first tracker holds, whatever the cross-tab store
    has become; it reads the per-tab store once and does nothing else
    before assigning the handler. *)
Theorem reload_round_trip t1 w1 options1 t2 w2 options2 :
  sessionInfo t1 = None →
  returns (initialize options1 (mkState t1 w1)) →
  unresolved t2 →
  is_Some (opt_sessionIdGenerator options2) →
  keyRejected options2 = false →
  effectiveKey t2 options2 = effectiveKey t1 options1 →
  sessionStorage w2
  = sessionStorage (world (final (initialize options1 (mkState t1 w1)))) →
  returns (initialize options2 (mkState t2 w2))
  ∧ sessionInfo (this (final (initialize options2 (mkState t2 w2))))
    = sessionInfo (this (final (initialize options1 (mkState t1 w1))))
  ∧ newCalls (mkState t2 w2) (initialize options2 (mkState t2 w2))
    = [SessionStorageGet (effectiveKey t1 options1); OnBeforeUnloadAssigned].
Proof.
  intros Hsi1 Hret1 Ht2 [g2 Hg2] Hkey2 Hsame Hstore.
  destruct (initialize_record_stored t1 w1 options1 Hsi1 Hret1)
    as ([r Hr] & _ & Hper & _).
  rewrite Hr in *.
  assert (Hss : perTab w2 (effectiveKey t2 options2) = Some r).
  { unfold perTab in *. rewrite Hsame, Hstore. exact Hper. }
  rewrite (initialize_reload _ _ _ g2 r) by assumption.
  rewrite Hsame. destruct w2.
  repeat split; calls_made; reflexivity.
Qed.

(** X7.  The next tab shares the session: after [initialize] has returned
    in a tab whose per-tab store had no record, a tracker in another tab
    (a per-tab store without a record, the cross-tab store as the first
    tab left it) resolves the same session id with the next tab number,
    without calling the generator.  The first tab's number is a safe
    integer, so that the code's [tab + 1] is exact. *)
Theorem next_tab_shares_session t1 w1 options1 t2 options2 r1
    (perTabStore2 : gmap JsString (Item T)) (hook2 : bool) (host2 : Host)
    (calls2 : list (Call T)) :
  sessionInfo t1 = None →
  returns (initialize options1 (mkState t1 w1)) →
  perTab w1 (effectiveKey t1 options1) = None →
  sessionInfo (this (final (initialize options1 (mkState t1 w1)))) = Some r1 →
  isSafeInteger (tab r1) = true →
  unresolved t2 →
  is_Some (opt_sessionIdGenerator options2) →
  keyRejected options2 = false →
  effectiveKey t2 options2 = effectiveKey t1 options1 →
  parsed (perTabStore2 !! effectiveKey t1 options1) = None →
  let w2 :=
    mkWorld perTabStore2
            (cookies (world (final (initialize options1 (mkState t1 w1)))))
            hook2 host2 calls2 in
  sessionInfo (this (final (initialize options2 (mkState t2 w2))))
  = Some (mkSessionInfo (id r1) (tab r1 + 1))
  ∧ generatorResults (newCalls (mkState t2 w2) (initialize options2 (mkState t2 w2)))
    = [].
Proof.
  intros Hsi1 Hret1 Hnone1 Hr1 _ Ht2 [g2 Hg2] Hkey2 Hsame Hnone2 w2.
  destruct (initialize_record_stored t1 w1 options1 Hsi1 Hret1)
    as (_ & _ & _ & Hcross).
  specialize (Hcross Hnone1). rewrite Hr1 in Hcross.
  assert (Hck2 : crossTab w2 (effectiveKey t2 options2) = Some r1).
  { rewrite Hsame. exact Hcross. }
  assert (Hss2 : perTab w2 (effectiveKey t2 options2) = None).
  { rewrite Hsame. exact Hnone2. }
  rewrite (initialize_new_tab _ _ _ g2 r1) by assumption.
  subst w2. destruct (opt_newTabOpenedCallback options2);
    split; try reflexivity; calls_made; reflexivity.
Qed.

(** X8.  Opening and closing cancel out: when a tab joins a session that
    the cross-tab store records as [r] and then closes, both stores hold
    [r] again, with the tab number the cross-tab store had before the tab
    opened.  The tab number of [r] is a safe integer, so that the code's
    [tab + 1] and [tab - 1] are exact. *)
Theorem open_then_close_restores_record t w options r :
  unresolved t →
  is_Some (opt_sessionIdGenerator options) →
  keyRejected options = false →
  perTab w (effectiveKey t options) = None →
  crossTab w (effectiveKey t options) = Some r →
  isSafeInteger (tab r) = true →
  let closed :=
    final (beforeunload (final (initialize options (mkState t w)))) in
  crossTab (world closed) (effectiveKey t options) = Some r
  ∧ perTab (world closed) (effectiveKey t options) = Some r.
Proof.
  intros Ht [g Hg] Hkey Hss Hck _ closed. subst closed.
  rewrite (initialize_new_tab _ _ _ g r) by assumption. cbn [final].
  rewrite beforeunload_installed by reflexivity.
  rewrite (onTabClose_present _ _ (incremented r)).
  2: { destruct w. cbv [perTab hooked registered logged sessionStorage
                         resolvedAs storageKeyName].
       rewrite lookup_insert_eq. reflexivity. }
  assert (Hback : decremented (incremented r) = r).
  { destruct r as [i n]. unfold decremented, incremented. cbn [id tab].
    f_equal. lia. }
  rewrite Hback. destruct w.
  cbv [crossTab perTab final world registered sessionStorage cookies
       resolvedAs storageKeyName].
  rewrite !lookup_insert_eq. split; reflexivity.
Qed.

(** X9.  The closed tab's number is handed out again: after the unload
    handler has run over a per-tab record [r], the next tab to open (a
    per-tab store without a record, the cross-tab store as the handler
    left it) resolves to record [r] itself, the session id and the very
    tab number of the closed tab, whatever the cross-tab store held before
    the unload.  The tab number of [r] is a safe integer, so that the
    code's [tab - 1] and [tab + 1] are exact. *)
Theorem closed_tab_number_reused t w r t2 options2
    (perTabStore2 : gmap JsString (Item T)) (hook2 : bool) (host2 : Host)
    (calls2 : list (Call T)) :
  onbeforeunload w = true →
  perTab w (storageKeyName t) = Some r →
  isSafeInteger (tab r) = true →
  unresolved t2 →
  is_Some (opt_sessionIdGenerator options2) →
  keyRejected options2 = false →
  effectiveKey t2 options2 = storageKeyName t →
  parsed (perTabStore2 !! storageKeyName t) = None →
  let w2 :=
    mkWorld perTabStore2 (cookies (world (final (beforeunload (mkState t w)))))
            hook2 host2 calls2 in
  sessionInfo (this (final (initialize options2 (mkState t2 w2)))) = Some r.
Proof.
  intros Hhook Hss _ Ht2 [g2 Hg2] Hkey2 Hsame Hnone2 w2.
  assert (Hck2 : crossTab w2 (effectiveKey t2 options2) = Some (decremented r)).
  { rewrite Hsame. subst w2. unfold crossTab. cbn [cookies].
    rewrite beforeunload_installed by assumption.
    rewrite (onTabClose_present _ _ r) by exact Hss. destruct w.
    cbv [final world registered logged cookies]. rewrite lookup_insert_eq.
    reflexivity. }
  assert (Hss2 : perTab w2 (effectiveKey t2 options2) = None).
  { rewrite Hsame. exact Hnone2. }
  rewrite (initialize_new_tab _ _ _ g2 (decremented r)) by assumption.
  cbn [final this resolvedAs sessionInfo]. f_equal.
  destruct r as [i n]. unfold decremented, incremented. cbn [id tab].
  f_equal. lia.
Qed.

(** X17.  A reload costs a tab number: when the unload handler has run
    over a per-tab record [r] and a new tracker then initializes in the
    same tab (the per-tab store as the handler left it, whatever the
    cross-tab store holds by then), the new tracker adopts [r] with its tab
    number lowered by 1, and calls neither the generator nor a callback.
    The tab number of [r] is a safe integer, so that the code's [tab - 1]
    is exact. *)
Theorem reload_after_unload_decrements t w r t2 options2
    (crossTabStore2 : gmap JsString (Item T)) (hook2 : bool) (host2 : Host)
    (calls2 : list (Call T)) :
  onbeforeunload w = true →
  perTab w (storageKeyName t) = Some r →
  isSafeInteger (tab r) = true →
  unresolved t2 →
  is_Some (opt_sessionIdGenerator options2) →
  keyRejected options2 = false →
  effectiveKey t2 options2 = storageKeyName t →
  let w2 :=
    mkWorld (sessionStorage (world (final (beforeunload (mkState t w)))))
            crossTabStore2 hook2 host2 calls2 in
  sessionInfo (this (final (initialize options2 (mkState t2 w2))))
  = Some (mkSessionInfo (id r) (tab r - 1))
  ∧ newCalls (mkState t2 w2) (initialize options2 (mkState t2 w2))
    = [SessionStorageGet (storageKeyName t); OnBeforeUnloadAssigned].
Proof.
  intros Hhook Hss _ Ht2 [g2 Hg2] Hkey2 Hsame w2.
  assert (Hss2 : perTab w2 (effectiveKey t2 options2) = Some (decremented r)).
  { rewrite Hsame. subst w2. unfold perTab. cbn [sessionStorage].
    rewrite beforeunload_installed by assumption.
    rewrite (onTabClose_present _ _ r) by exact Hss. destruct w.
    cbv [final world registered logged sessionStorage].
    rewrite lookup_insert_eq. reflexivity. }
  rewrite (initialize_reload _ _ _ g2 (decremented r)) by assumption.
  rewrite Hsame. subst w2. split; [reflexivity|]. calls_made. reflexivity.
Qed.

End Composition.

(** * What is left alone *)

(** Goes through an explicit list of calls, reading off the key of each. *)
Ltac keys_checked :=
  cbn [app];
  repeat (apply List.Forall_cons;
          [first [left; reflexivity | right; reflexivity]|]);
  apply List.Forall_nil.

(** Runs the accessor [storageKey] on an explicit final state. *)
Ltac key_returned Heff :=
  cbv [storageKey mbind M_bind getThis mret M_ret final this resolvedAs
       storageKeyName];
  rewrite Heff; reflexivity.

Section Frames.

Context {T Host : Type}.
Implicit Types (t : Tracker T Host) (w : World T Host) (s : State T Host).
Implicit Types (options : Options T Host) (r : SessionInfo T) (key : JsString).

(** The slots [initialize] cannot reach. *)
Lemma initialize_other_keys t w options key :
  key ≠ effectiveKey t options →
  sessionStorage (world (final (initialize options (mkState t w)))) !! key
  = sessionStorage w !! key
  ∧ cookies (world (final (initialize options (mkState t w)))) !! key
    = cookies w !! key.
Proof.
  intros Hne. rewrite initialize_outcome. unfold initializeOutcome.
  destruct (sessionInfo t) as [r0|]; [destruct w; split; reflexivity|].
  destruct (opt_sessionIdGenerator options) as [g|]; [|split; reflexivity].
  destruct (keyRejected options); [split; reflexivity|].
  unfold resolutionOutcome.
  change (storageKeyName (configured t options)) with (effectiveKey t options).
  destruct (perTab w (effectiveKey t options)) as [r|].
  { destruct w, (newSessionCreated (configured t options)),
      (opt_sessionStartedCallback options); split; reflexivity. }
  destruct (crossTab w (effectiveKey t options)) as [r|].
  { destruct w, (newSessionCreated (configured t options)),
      (opt_sessionStartedCallback options);
      cbv [final world hooked announced registered logged sessionStorage cookies];
      rewrite !lookup_insert_ne by congruence; split; reflexivity. }
  destruct w, (opt_sessionStartedCallback options);
    cbv [final world hooked announced registered minted logged
         sessionStorage cookies];
    rewrite !lookup_insert_ne by congruence; split; reflexivity.
Qed.

(** X10.  [initialize] touches the two stores at one key only: whatever
    the tracker, the options and the outcome, every slot of the per-tab
    and of the cross-tab store under another key than the effective one
    is as it was. *)
Theorem initialize_touches_only_its_key t w options key :
  key ≠ effectiveKey t options →
  sessionStorage (world (final (initialize options (mkState t w)))) !! key
  = sessionStorage w !! key
  ∧ cookies (world (final (initialize options (mkState t w)))) !! key
    = cookies w !! key.
Proof. exact (initialize_other_keys t w options key). Qed.

(** X11.  The unload handler touches the two stores at the tracker's
    storage key only. *)
Theorem unload_touches_only_its_key t w key :
  key ≠ storageKeyName t →
  sessionStorage (world (final (beforeunload (mkState t w)))) !! key
  = sessionStorage w !! key
  ∧ cookies (world (final (beforeunload (mkState t w)))) !! key
    = cookies w !! key.
Proof.
  intros Hne. destruct (onbeforeunload w) eqn:Hhook.
  2: { rewrite beforeunload_not_installed by assumption. split; reflexivity. }
  rewrite beforeunload_installed by assumption.
  destruct (perTab w (storageKeyName t)) as [r|] eqn:Hss.
  - rewrite (onTabClose_present _ _ r) by exact Hss. destruct w.
    cbv [final world registered logged sessionStorage cookies].
    rewrite !lookup_insert_ne by congruence. split; reflexivity.
  - rewrite onTabClose_absent by exact Hss. destruct w. split; reflexivity.
Qed.

(** X12.  [initialize] never replaces a session: a record the cross-tab
    store holds, under whatever key, with a tab number that is a safe
    integer (so that the code's [tab + 1] is exact), is still there
    afterwards with the same session id, its tab number unchanged or one
    higher. *)
Theorem initialize_keeps_session_id t w options key r :
  crossTab w key = Some r →
  isSafeInteger (tab r) = true →
  ∃ r', crossTab (world (final (initialize options (mkState t w)))) key = Some r'
        ∧ id r' = id r
        ∧ (tab r' = tab r ∨ tab r' = tab r + 1).
Proof.
  intros Hck _.
  destruct (decide (key = effectiveKey t options)) as [->|Hne].
  2: { destruct (initialize_other_keys t w options key Hne) as [_ Hsame].
       exists r. unfold crossTab in *. rewrite Hsame. auto. }
  rewrite initialize_outcome. unfold initializeOutcome.
  destruct (sessionInfo t) as [r0|]; [exists r; destruct w; auto|].
  destruct (opt_sessionIdGenerator options) as [g|]; [|exists r; auto].
  destruct (keyRejected options); [exists r; auto|].
  unfold resolutionOutcome.
  change (storageKeyName (configured t options)) with (effectiveKey t options).
  rewrite Hck.
  destruct (perTab w (effectiveKey t options)) as [r1|].
  { exists r. destruct w, (newSessionCreated (configured t options)),
      (opt_sessionStartedCallback options); auto. }
  exists (incremented r).
  destruct w, (newSessionCreated (configured t options)),
    (opt_sessionStartedCallback options);
    cbv [crossTab final world hooked announced registered logged cookies];
    rewrite lookup_insert_eq; auto.
Qed.

(** X13.  An accepted override is the key of everything: when the options
    carry a [storageKey] with at least one character that is not
    whitespace, [initialize] on a tracker without a record returns, the
    accessor [storageKey] returns the override from then on, and every call
    of the storage service made on the way was made with the override. *)
Theorem override_key_used t w options g key :
  sessionInfo t = None →
  opt_sessionIdGenerator options = Some g →
  opt_storageKey options = Some key →
  Exists (λ c, isWhiteSpace c = false) key →
  let c := initialize options (mkState t w) in
  returns c
  ∧ storageKey (final c) = Normal key (final c)
  ∧ Forall (λ call, callKey call = None ∨ callKey call = Some key)
           (newCalls (mkState t w) c).
Proof.
  intros Hsi Hg Hopt Hex c. subst c.
  assert (Hfalsy : isFalsyString key = false).
  { destruct key; [inversion Hex | reflexivity]. }
  assert (Hrej : keyRejected options = false).
  { unfold keyRejected. rewrite Hopt, Hfalsy. cbn [negb andb].
    unfold REGEX_EMPTY_STRING_test. apply not_true_is_false. intros Hall.
    rewrite forallb_forall in Hall. apply Exists_exists in Hex.
    destruct Hex as (c & Hin & Hc). apply list_elem_of_In in Hin.
    rewrite (Hall c Hin) in Hc. discriminate Hc. }
  assert (Heff : effectiveKey t options = key).
  { unfold effectiveKey. rewrite Hopt, Hfalsy. reflexivity. }
  rewrite initialize_outcome. unfold initializeOutcome.
  rewrite Hsi, Hg, Hrej. unfold resolutionOutcome.
  change (storageKeyName (configured t options)) with (effectiveKey t options).
  rewrite Heff.
  destruct (perTab w key) as [r|].
  { destruct w, (newSessionCreated (configured t options)),
      (opt_sessionStartedCallback options);
      (split; [exact I|]); (split; [key_returned Heff|]);
      calls_made; keys_checked. }
  destruct (crossTab w key) as [r|].
  { destruct w, (newSessionCreated (configured t options)),
      (opt_sessionStartedCallback options),
      (newTabOpenedCallback (configured t options));
      (split; [exact I|]); (split; [key_returned Heff|]);
      calls_made; keys_checked. }
  destruct w, (opt_sessionStartedCallback options),
    (newTabOpenedCallback (configured t options));
    (split; [exact I|]); (split; [key_returned Heff|]);
    calls_made; keys_checked.
Qed.

End Frames.

(** * Counting tabs *)

Section Counting.

Context {T Host : Type}.
Implicit Types (t : Tracker T Host) (w : World T Host) (s : State T Host).
Implicit Types (options : Options T Host) (r : SessionInfo T) (key : JsString).

(** One firing of the installed handler over a per-tab record. *)
Lemma fire_once t w r :
  onbeforeunload w = true →
  perTab w (storageKeyName t) = Some r →
  ∃ w', final (beforeunload (mkState t w)) = mkState t w'
        ∧ onbeforeunload w' = true
        ∧ perTab w' (storageKeyName t) = Some (decremented r)
        ∧ crossTab w' (storageKeyName t) = Some (decremented r).
Proof.
  intros Hhook Hss.
  rewrite beforeunload_installed by assumption.
  rewrite (onTabClose_present _ _ r) by exact Hss.
  eexists. split; [reflexivity|]. destruct w. cbn in Hhook. subst.
  cbv [perTab crossTab registered logged sessionStorage cookies onbeforeunload].
  rewrite !lookup_insert_eq. repeat split.
Qed.

(** X14.  The handler stays installed and has no floor: fired [n + 1]
    times over a per-tab record [r], it leaves in both stores the record
    with the session id of [r] and tab number [tab r - (n + 1)], below zero
    once [n + 1] exceeds [tab r]; the tracker itself is unchanged.  Every
    tab number the handler reads on the way, from [tab r] down to
    [tab r - n], is a safe integer, so that the code's [tab - 1] is exact
    each time. *)
Theorem unload_repeated t w r (n : nat) :
  onbeforeunload w = true →
  perTab w (storageKeyName t) = Some r →
  isSafeInteger (tab r) = true →
  isSafeInteger (tab r - Z.of_nat n) = true →
  let s := fireTimes (S n) (mkState t w) in
  this s = t
  ∧ onbeforeunload (world s) = true
  ∧ perTab (world s) (storageKeyName t)
    = Some (mkSessionInfo (id r) (tab r - Z.of_nat (S n)))
  ∧ crossTab (world s) (storageKeyName t)
    = Some (mkSessionInfo (id r) (tab r - Z.of_nat (S n))).
Proof.
  intros Hhook Hss Hfirst Hlast s. subst s. induction n as [|n IH].
  - change (fireTimes 1 (mkState t w)) with (final (beforeunload (mkState t w))).
    destruct (fire_once t w r Hhook Hss) as (w' & -> & H1 & H2 & H3).
    cbn [this world]. repeat split; assumption.
  - change (fireTimes (S (S n)) (mkState t w))
      with (final (beforeunload (fireTimes (S n) (mkState t w)))).
    assert (Hbefore : isSafeInteger (tab r - Z.of_nat n) = true).
    { unfold isSafeInteger in *.
      apply andb_true_iff in Hfirst as [Hlo Hhi].
      apply andb_true_iff in Hlast as [Hlo' Hhi'].
      apply Z.leb_le in Hlo, Hhi, Hlo', Hhi'.
      apply andb_true_iff. split; apply Z.leb_le; lia. }
    specialize (IH Hbefore).
    destruct (fireTimes (S n) (mkState t w)) as [t' w'].
    cbn [this world] in IH. destruct IH as (-> & H1 & H2 & _).
    destruct (fire_once t w' _ H1 H2) as (w'' & -> & H3 & H4 & H5).
    cbn [this world].
    assert (Hd : decremented (mkSessionInfo (id r) (tab r - Z.of_nat (S n)))
                 = mkSessionInfo (id r) (tab r - Z.of_nat (S (S n)))).
    { unfold decremented. cbn [id tab]. f_equal. lia. }
    rewrite Hd in H4, H5. repeat split; assumption.
Qed.

(** X15.  The order of a first tab: both stores are read before the
    generator runs; [newTabOpenedCallback] runs before either store is
    written, the cross-tab store is written before the per-tab store,
    [sessionStartedCallback] runs after both writes, and the handler is
    assigned last.  The host sees the three functions in that order. *)
Theorem first_tab_call_order t w options g started opened :
  unresolved t →
  opt_sessionIdGenerator options = Some g →
  opt_sessionStartedCallback options = Some started →
  opt_newTabOpenedCallback options = Some opened →
  keyRejected options = false →
  perTab w (effectiveKey t options) = None →
  crossTab w (effectiveKey t options) = None →
  let c := initialize options (mkState t w) in
  let key := effectiveKey t options in
  let newId := fst (g (host w)) in
  newCalls (mkState t w) c
  = [SessionStorageGet key; SessionCookieGet key; GeneratorCalled newId;
     NewTabOpenedCalled 1;
     SessionCookieSet key (mkSessionInfo newId 1);
     SessionStorageSet key (mkSessionInfo newId 1);
     SessionStartedCalled newId 1; OnBeforeUnloadAssigned]
  ∧ host (world (final c)) = started newId 1 (opened 1 (snd (g (host w)))).
Proof.
  intros Ht Hg Hst Hop Hkey Hss Hck c key newId. subst c key newId.
  rewrite (initialize_new_session _ _ _ g) by assumption.
  rewrite Hst, Hop. destruct w. split; [calls_made|]; reflexivity.
Qed.




End Counting.

(** * More scenarios, run *)

Section MoreScenarios.

Import Scenario.

Lemma resolved_tracker_never_changes_witness :
  this (history eventfulLife (mkState closingTracker closingBrowser))
  = this (mkState closingTracker closingBrowser)
  ∧ tabId (history eventfulLife (mkState closingTracker closingBrowser))
    = Normal 2 (history eventfulLife (mkState closingTracker closingBrowser))
  ∧ sessionId (history eventfulLife (mkState closingTracker closingBrowser))
    = Normal "S" (history eventfulLife (mkState closingTracker closingBrowser)).
Proof.
  exact (resolved_tracker_never_changes eventfulLife
           (mkState closingTracker closingBrowser) (mkSessionInfo "S" 2) eq_refl).
Defined.

Lemma refusal_leaves_no_trace_witness :
  raises InvalidKeyError blankKeyRun
  ∧ world (final blankKeyRun) = emptyBrowser
  ∧ sessionInfo (this (final blankKeyRun)) = None
  ∧ storageKeyName (this (final blankKeyRun)) = DEFAULT_STORAGE_KEY
  ∧ newSessionCreated (this (final blankKeyRun)) = false
  ∧ sessionIdGenerator (this (final blankKeyRun)) = Some uuid
  ∧ sessionStartedCallback (this (final blankKeyRun)) = None
  ∧ newTabOpenedCallback (this (final blankKeyRun)) = None.
Proof.
  exact (proj1 (proj2 (refusal_leaves_no_trace freshTracker emptyBrowser
                         blankKeyOptions eq_refl))
           (ex_intro _ uuid eq_refl) eq_refl).
Defined.

Lemma refused_initialize_is_retryable_witness :
  raises InvalidKeyError blankKeyRun ∧ retryRun = firstTabRun.
Proof.
  split; [reflexivity|].
  exact (refused_initialize_is_retryable freshTracker emptyBrowser
           blankKeyOptions allOptions eq_refl (or_intror eq_refl)
           (ex_intro _ uuid eq_refl)).
Defined.

Lemma initialize_persists_record_witness :
  is_Some (sessionInfo (this (final secondTabRun)))
  ∧ storageKeyName (this (final secondTabRun)) = DEFAULT_STORAGE_KEY
  ∧ perTab (world (final secondTabRun)) DEFAULT_STORAGE_KEY
    = sessionInfo (this (final secondTabRun))
  ∧ (perTab oneTabOpen DEFAULT_STORAGE_KEY = None →
     crossTab (world (final secondTabRun)) DEFAULT_STORAGE_KEY
     = sessionInfo (this (final secondTabRun))).
Proof.
  exact (initialize_persists_record freshTracker oneTabOpen allOptions eq_refl I).
Defined.

Lemma reload_round_trip_witness :
  returns reloadAfterSecondTab
  ∧ sessionInfo (this (final reloadAfterSecondTab))
    = sessionInfo (this (final secondTabRun))
  ∧ newCalls (mkState freshTracker (world (final secondTabRun)))
      reloadAfterSecondTab
    = [SessionStorageGet DEFAULT_STORAGE_KEY; OnBeforeUnloadAssigned].
Proof.
  exact (reload_round_trip freshTracker oneTabOpen allOptions
           freshTracker (world (final secondTabRun)) allOptions
           eq_refl I (conj eq_refl eq_refl) (ex_intro _ uuid eq_refl)
           eq_refl eq_refl eq_refl).
Defined.

Lemma next_tab_shares_session_witness :
  sessionInfo (this (final tabAfterSecondTab)) = Some (mkSessionInfo "S" 3)
  ∧ generatorResults (newCalls (mkState freshTracker afterSecondTab) tabAfterSecondTab)
    = [].
Proof.
  exact (next_tab_shares_session freshTracker oneTabOpen allOptions
           freshTracker allOptions (mkSessionInfo "S" 2) ∅ false 0%nat []
           eq_refl I eq_refl eq_refl eq_refl (conj eq_refl eq_refl)
           (ex_intro _ uuid eq_refl) eq_refl eq_refl eq_refl).
Defined.

Lemma open_then_close_restores_record_witness :
  crossTab (world (final closeAfterSecondTab)) DEFAULT_STORAGE_KEY
  = Some (mkSessionInfo "S" 1)
  ∧ perTab (world (final closeAfterSecondTab)) DEFAULT_STORAGE_KEY
    = Some (mkSessionInfo "S" 1).
Proof.
  exact (open_then_close_restores_record freshTracker oneTabOpen allOptions
           (mkSessionInfo "S" 1) (conj eq_refl eq_refl)
           (ex_intro _ uuid eq_refl) eq_refl eq_refl eq_refl eq_refl).
Defined.

Lemma closed_tab_number_reused_witness :
  crossTab closingBrowser DEFAULT_STORAGE_KEY = Some (mkSessionInfo "S" 3)
  ∧ sessionInfo (this (final tabAfterClose)) = Some (mkSessionInfo "S" 2).
Proof.
  split; [reflexivity|].
  exact (closed_tab_number_reused closingTracker closingBrowser
           (mkSessionInfo "S" 2) freshTracker allOptions ∅ false 0%nat []
           eq_refl eq_refl eq_refl (conj eq_refl eq_refl)
           (ex_intro _ uuid eq_refl) eq_refl eq_refl eq_refl).
Defined.

Lemma customKey_is_not_default : customKey ≠ DEFAULT_STORAGE_KEY.
Proof. vm_compute. discriminate. Qed.

Lemma initialize_touches_only_its_key_witness :
  sessionStorage (world (final secondTabRun)) !! customKey
  = sessionStorage oneTabOpen !! customKey
  ∧ cookies (world (final secondTabRun)) !! customKey
    = cookies oneTabOpen !! customKey.
Proof.
  exact (initialize_touches_only_its_key freshTracker oneTabOpen allOptions
           customKey customKey_is_not_default).
Defined.

Lemma unload_touches_only_its_key_witness :
  sessionStorage (world (final unloadAfterThirdTab)) !! customKey
  = sessionStorage closingBrowser !! customKey
  ∧ cookies (world (final unloadAfterThirdTab)) !! customKey
    = cookies closingBrowser !! customKey.
Proof.
  exact (unload_touches_only_its_key closingTracker closingBrowser
           customKey customKey_is_not_default).
Defined.

Lemma initialize_keeps_session_id_witness :
  ∃ r', crossTab (world (final secondTabRun)) DEFAULT_STORAGE_KEY = Some r'
        ∧ id r' = "S"
        ∧ (tab r' = 1 ∨ tab r' = 1 + 1).
Proof.
  exact (initialize_keeps_session_id freshTracker oneTabOpen allOptions
           DEFAULT_STORAGE_KEY (mkSessionInfo "S" 1) eq_refl eq_refl).
Defined.

Lemma override_key_used_witness :
  returns customKeyRun
  ∧ storageKey (final customKeyRun) = Normal customKey (final customKeyRun)
  ∧ Forall (λ call, callKey call = None ∨ callKey call = Some customKey)
           (newCalls (mkState freshTracker emptyBrowser) customKeyRun).
Proof.
  refine (override_key_used freshTracker emptyBrowser customKeyOptions uuid
            customKey eq_refl eq_refl eq_refl _).
  apply List.Exists_cons_hd. reflexivity.
Defined.

Lemma unload_repeated_witness :
  this (fireTimes 3 (mkState closingTracker closingBrowser)) = closingTracker
  ∧ onbeforeunload (world (fireTimes 3 (mkState closingTracker closingBrowser)))
    = true
  ∧ perTab (world (fireTimes 3 (mkState closingTracker closingBrowser)))
      (storageKeyName closingTracker)
    = Some (mkSessionInfo "S" (-1))
  ∧ crossTab (world (fireTimes 3 (mkState closingTracker closingBrowser)))
      (storageKeyName closingTracker)
    = Some (mkSessionInfo "S" (-1)).
Proof.
  exact (unload_repeated closingTracker closingBrowser (mkSessionInfo "S" 2) 2
           eq_refl eq_refl eq_refl eq_refl).
Defined.

Lemma first_tab_call_order_witness :
  newCalls (mkState freshTracker emptyBrowser) firstTabRun
  = [SessionStorageGet DEFAULT_STORAGE_KEY; SessionCookieGet DEFAULT_STORAGE_KEY;
     GeneratorCalled "minted"; NewTabOpenedCalled 1;
     SessionCookieSet DEFAULT_STORAGE_KEY (mkSessionInfo "minted" 1);
     SessionStorageSet DEFAULT_STORAGE_KEY (mkSessionInfo "minted" 1);
     SessionStartedCalled "minted" 1; OnBeforeUnloadAssigned]
  ∧ host (world (final firstTabRun)) = 1%nat.
Proof.
  exact (first_tab_call_order freshTracker emptyBrowser allOptions
           uuid onStarted onOpened (conj eq_refl eq_refl)
           eq_refl eq_refl eq_refl eq_refl eq_refl eq_refl).
Defined.


Lemma reload_after_unload_decrements_witness :
  sessionInfo closingTracker = Some (mkSessionInfo "S" 2)
  ∧ sessionInfo (this (final reloadAfterUnload)) = Some (mkSessionInfo "S" 1)
  ∧ newCalls (mkState freshTracker afterUnload) reloadAfterUnload
    = [SessionStorageGet (storageKeyName closingTracker); OnBeforeUnloadAssigned].
Proof.
  split; [reflexivity|].
  exact (reload_after_unload_decrements closingTracker closingBrowser
           (mkSessionInfo "S" 2) freshTracker allOptions
           (cookies (world (final unloadAfterThirdTab))) false 0%nat []
           eq_refl eq_refl eq_refl (conj eq_refl eq_refl)
           (ex_intro _ uuid eq_refl) eq_refl eq_refl).
Defined.

End MoreScenarios.
